(** * DeepSpeechSecEval.VictimAPI: feature extraction and decoding front-end

    A shallow embedding of [DeepSpeechSecEval/VictimAPI.py]:

    - [CarliniWagnerTransforms]: pre-emphasis, framing and context
      stacking, on tensors represented as nested lists;
    - [Model]: the session bracket [tf_run], [get_logits] and the
      strategy dispatch of [inference], in a state-and-exception monad.

    TensorFlow, NumPy and [ds_ctcdecoder] are outside the repository.
    Their numeric kernels are the fields of two interfaces ([Numerics],
    [Backend]); their shape rules and the decoder's batching rule are
    written out where a statement depends on them. *)

From stdpp Require Import base list strings gmap pretty.
From Stdlib Require Import ZArith QArith Lia.

Local Open Scope Z_scope.

(** ** Python values shared by both classes *)

(** The exception classes that occur in the module. [Exception_] is the
    bare [Exception] class. *)
Inductive exn : Type :=
| NotImplementedError (msg : string)
| AttributeError (msg : string)
| TypeError (msg : string)
| IndexError (msg : string)
| ValueError (msg : string)
| Exception_ (msg : string).

(** A call either returns or raises. *)
Inductive result (A : Type) : Type :=
| Ok (a : A)
| Raise (e : exn).
Arguments Ok {A} a.
Arguments Raise {A} e.

#[global] Instance result_ret : MRet result := λ A a, Ok a.

#[global] Instance result_bind : MBind result := λ A B f m,
  match m with Ok a => f a | Raise e => Raise e end.

(** A for-loop or comprehension whose body may raise: the first
    exception ends it. *)
Fixpoint for_each {A B} (f : A → result B) (l : list A) : result (list B) :=
  match l with
  | [] => Ok []
  | x :: l' => y ← f x; ys ← for_each f l'; Ok (y :: ys)
  end.

(** [len(range(start, stop, step))] for a positive [step]. *)
Definition range_len (start stop step : Z) : nat :=
  if bool_decide (start < stop) then Z.to_nat ((stop - start - 1) / step + 1)
  else 0%nat.

(** [range(start, stop, step)]; the module only builds ranges whose step
    is a positive constant of the transform ([window_step], [n_ceps]) or
    the literal 1. *)
Definition py_range (start stop step : Z) : list Z :=
  (λ k : nat, start + Z.of_nat k * step) <$> seq 0 (range_len start stop step).

(** [l[i:j]] for non-negative bounds: Python clamps both bounds to the
    length of [l]. *)
Definition py_slice {A} (i j : Z) (l : list A) : list A :=
  take (Z.to_nat j - Z.to_nat i) (drop (Z.to_nat i) l).

(** [l[i]] for a non-negative index, [IndexError] when out of range. *)
Definition py_index {A} (l : list A) (i : nat) : result A :=
  match l !! i with
  | Some x => Ok x
  | None => Raise (IndexError "list index out of range")
  end.

(** [s[i]] on a string: a negative index counts from the end. *)
Definition py_str_index (s : string) (i : Z) : result Ascii.ascii :=
  let n := Z.of_nat (String.length s) in
  let j := if bool_decide (i < 0) then i + n else i in
  if bool_decide (0 ≤ j < n) then
    match String.get (Z.to_nat j) s with
    | Some c => Ok c
    | None => Raise (IndexError "string index out of range")
    end
  else Raise (IndexError "string index out of range").

(** The truth value of the [decoder] argument: [None] and the empty
    string are false. *)
Definition truthy (d : option string) : bool :=
  match d with
  | Some s => negb (String.eqb s "")
  | None => false
  end.

(** ** Tensors as nested lists (row-major, outermost axis first) *)

(** Static size of axis 1 of a batch-major tensor, read off its first
    item ([get_shape().as_list()[1]], [feats.shape[1]]). *)
Definition shape1 {A} (t : list (list A)) : Z :=
  match t with
  | [] => 0
  | row :: _ => Z.of_nat (length row)
  end.

(** A rank-2 tensor of shape [[B, w]]. *)
Definition shape2 {A} (B w : nat) (t : list (list A)) : Prop :=
  length t = B ∧ Forall (λ r, length r = w) t.

(** A rank-3 tensor of shape [[B, n, c]]. *)
Definition shape3 {A} (B n c : nat) (t : list (list (list A))) : Prop :=
  length t = B ∧ Forall (λ it, length it = n ∧ Forall (λ r, length r = c) it) t.

(** A rank-4 tensor of shape [[B, n, t, c]]. *)
Definition shape4 {A} (B n t c : nat) (f : list (list (list (list A)))) : Prop :=
  length f = B ∧
  Forall (λ it, length it = n ∧
                Forall (λ blk, length blk = t ∧ Forall (λ r, length r = c) blk)
                  it) f.

(** [tf.stack(values, 1)] on rank-2 tensors of shape [[B, w]]: the result
    has shape [[B, len(values), w]]. TensorFlow 1.x reads [values[0]]
    first, so an empty list raises [IndexError]; tensors of different
    shapes are rejected when the op is built. *)
Definition tf_stack1 {A} (values : list (list (list A)))
  : result (list (list (list A))) :=
  match values with
  | [] => Raise (IndexError "list index out of range")
  | v0 :: _ =>
      if decide (Forall (λ v, length <$> v = length <$> v0) values)
      then Ok ((λ b : nat, (λ v, default [] (v !! b)) <$> values)
                 <$> seq 0 (length v0))
      else Raise (ValueError "Shapes of all inputs must match")
  end.

(** [tf.concat(values, 1)] on rank-3 tensors: every input has the same
    batch size and the same size [c] on the last axis. *)
Definition tf_concat1 {A} (c : nat) (values : list (list (list (list A))))
  : result (list (list (list A))) :=
  match values with
  | [] => Raise (ValueError "List argument values to ConcatV2 Op is empty")
  | v0 :: _ =>
      if decide (Forall (λ v, length v = length v0
                              ∧ Forall (Forall (λ r, length r = c)) v) values)
      then Ok ((λ b : nat, mjoin ((λ v, default [] (v !! b)) <$> values))
                 <$> seq 0 (length v0))
      else Raise (ValueError "Dimensions of inputs should match")
  end.

(** Row-major split of a flat list into rows of [k] entries. *)
Definition chunks {A} (k : nat) (l : list A) : list (list A) :=
  reshape (replicate (length l / k)%nat k) l.

(** [tf.reshape(t, [B, -1, tot, c])] on a rank-3 tensor with [B] items:
    each item is flattened and cut into blocks of [tot] rows of [c]
    entries; the inferred axis must come out whole. *)
Definition tf_reshape4 {A} (tot c : nat) (t : list (list (list A)))
  : result (list (list (list (list A)))) :=
  if decide (Forall (λ it, (tot * c)%nat ≠ 0%nat
                           ∧ (length (mjoin it) `mod` (tot * c))%nat = 0%nat) t)
  then Ok ((λ it, chunks tot (chunks c (mjoin it))) <$> t)
  else Raise (ValueError "Cannot reshape a tensor to the requested shape").

(** ** class CarliniWagnerTransforms *)

(** The float32 arithmetic of the graph. [cast] is
    [tf.cast(_, tf.float32)], [c097] the constant 0.97. Steps 2 (Hamming
    weighting) to 7 of [mfcc_ops] act on each frame separately:
    weighting, [rfft], energy, the filter bank of [filterbanks.npy],
    [log], [dct], liftering and the energy column; [frame_mfcc] is that
    per-frame map. The filter bank is the array [np.load] reads from
    the file shipped beside the module, which is taken to be there;
    [mfcc_ops] keeps the shape rules of the ops over the whole batch. *)
Class Numerics (Sample F : Type) : Type := {
  cast : Sample → F;
  fzero : F;
  c097 : F;
  fsub : F → F → F;
  fmul : F → F → F;
  frame_mfcc : list F → list F
}.

(** The attributes of an instance; [filter_bank_filepath] only locates
    the filter bank used inside [frame_mfcc], and [windowed],
    [features_shape], [features_len] are never assigned after
    [__init__]. *)
Record CarliniWagnerTransforms (Sample F : Type) : Type := mkCWT {
  window_size : Z;
  window_step : Z;
  n_ceps : Z;
  n_contexts : Z;
  tot_contexts : Z;
  cep_lifter : Z;
  audio_input : list (list Sample);
  batch_size : Z;
  mfcc : option (list (list (list F)));
  features : option (list (list (list (list F))))
}.
Arguments mkCWT {Sample F}.
Arguments window_size {Sample F}.
Arguments window_step {Sample F}.
Arguments n_ceps {Sample F}.
Arguments n_contexts {Sample F}.
Arguments tot_contexts {Sample F}.
Arguments cep_lifter {Sample F}.
Arguments audio_input {Sample F}.
Arguments batch_size {Sample F}.
Arguments mfcc {Sample F}.
Arguments features {Sample F}.

Section FeatureExtraction.
Context {Sample F : Type} `{numerics : Numerics Sample F}.

Definition set_mfcc (self : CarliniWagnerTransforms Sample F)
    (m : list (list (list F))) : CarliniWagnerTransforms Sample F :=
  mkCWT (window_size self) (window_step self) (n_ceps self)
    (n_contexts self) (tot_contexts self) (cep_lifter self)
    (audio_input self) (batch_size self) (Some m) (features self).

Definition set_features (self : CarliniWagnerTransforms Sample F)
    (f : list (list (list (list F)))) : CarliniWagnerTransforms Sample F :=
  mkCWT (window_size self) (window_step self) (n_ceps self)
    (n_contexts self) (tot_contexts self) (cep_lifter self)
    (audio_input self) (batch_size self) (mfcc self) (Some f).

(** [__init__]. [int(0.032 * sample_rate)] and [int(0.02 * sample_rate)]
    are written with exact arithmetic: 32/1000 and 20/1000 of the sample
    rate, truncated. At the default rate 16000 both float products are
    whole (512.0 and 320.0). *)
Definition __init__ (audio_tensor : list (list Sample)) (batch_size : Z)
    (sample_rate n_context n_ceps cep_lift : Z)
  : CarliniWagnerTransforms Sample F :=
  {| window_size := (32 * sample_rate) ÷ 1000;
     window_step := (20 * sample_rate) ÷ 1000;
     n_ceps := n_ceps;
     n_contexts := n_context;
     tot_contexts := n_context * 2 + 1;
     cep_lifter := cep_lift;
     audio_input := audio_tensor;
     batch_size := batch_size;
     mfcc := None;
     features := None |}.

(** The constructor with its default keyword arguments
    ([sample_rate=16000, n_context=9, n_ceps=26, cep_lift=22]), as
    [Model.create_graph] calls it. *)
Definition init_default (audio_tensor : list (list Sample)) (batch_size : Z)
  : CarliniWagnerTransforms Sample F :=
  __init__ audio_tensor batch_size 16000 9 26 22.

(** [_window_generator]: one slice [audio[:, i:i + window_size]] per
    [i] in [range(0, size - window_step, window_step)]. *)
Definition _window_generator (self : CarliniWagnerTransforms Sample F)
    (audio : list (list F)) (size : Z) : list (list (list F)) :=
  (λ i, py_slice i (i + window_size self) <$> audio)
    <$> py_range 0 (size - window_step self) (window_step self).

(** [d - k] for a [Dimension] [d] of a static shape and an integer [k]:
    [k] is made a [Dimension] first, and a [Dimension] is never
    negative. *)
Definition dimension_sub (d k : Z) : result Z :=
  if decide (k < 0)
  then Raise (ValueError ("Dimension " ++ pretty k ++ " must be >= 0"))
  else if decide (d - k < 0)
  then Raise (ValueError ("Dimension " ++ pretty (d - k) ++ " must be >= 0"))
  else Ok (d - k).

(** [_context_generator], as [lcomp] consumes it. [feats.shape[1]] is a
    [Dimension], so the bound of the range raises when [feats] is
    narrower than one block of contexts. *)
Definition _context_generator (self : CarliniWagnerTransforms Sample F)
    (feats : list (list F)) : result (list (list (list F))) :=
  stop ← dimension_sub (shape1 feats) (tot_contexts self * n_ceps self);
  Ok ((λ i, py_slice i (i + tot_contexts self * n_ceps self) <$> feats)
        <$> py_range 0 (stop + 1) (n_ceps self)).

(** Step 1 of [mfcc_ops] on one row:
    [concat((a[:1], a[1:] - 0.97 * a[:-1]))]. *)
Definition preemphasis_row (a : list F) : list F :=
  take 1 a ++ zip_with fsub (drop 1 a) (fmul c097 <$> take (length a - 1) a).

Definition preemphasis (audio : list (list F)) : list (list F) :=
  preemphasis_row <$> audio.

(** [windowed * window]: the frames are weighted by a Hamming window of
    [window_size] points, so the last axis of [windowed] has to be
    [window_size] long (or 1, which a slice of more than [window_step]
    samples is not). *)
Definition hamming_shape (self : CarliniWagnerTransforms Sample F)
    (windowed : list (list (list F))) : result (list (list (list F))) :=
  if decide (Forall (Forall (λ fr, length fr = Z.to_nat (window_size self)))
               windowed)
  then Ok windowed
  else Raise (ValueError "Dimensions must be equal").

(** [tf.matmul(ffted, filters)]: [filters] stacks [batch_size] copies of
    the filter bank, one per waveform. With no copy at all it is an
    empty vector, which is no matrix; otherwise it is a batch of
    matrices, and the matrix product of TensorFlow 1.12 (the release
    DeepSpeech 0.4.1 runs on) takes two batches of the same size. *)
Definition matmul_shape (batch_size : Z) (ffted : list (list (list F)))
  : result unit :=
  if decide (batch_size ≤ 0)
  then Raise (ValueError "Shape must be rank 2 but is rank 3")
  else if decide (batch_size = Z.of_nat (length ffted))
  then Ok tt
  else Raise (ValueError "Dimensions must be equal").

(** [mfcc_ops]. The ops are built in the order of the source: the
    frames are stacked and weighted before the filter bank is stacked
    and multiplied in. *)
Definition mfcc_ops (self : CarliniWagnerTransforms Sample F)
  : result (CarliniWagnerTransforms Sample F) :=
  let batch_size := batch_size self in
  let audio := fmap (M:=list) cast <$> audio_input self in
  let audio := preemphasis audio in
  let size := shape1 audio in
  windowed ← tf_stack1 (_window_generator self audio size);
  windowed ← hamming_shape self windowed;
  matmul_shape batch_size windowed ;;
  Ok (set_mfcc self (fmap (M:=list) frame_mfcc <$> windowed)).

(** [window_ops]. *)
Definition window_ops (self : CarliniWagnerTransforms Sample F)
  : result (CarliniWagnerTransforms Sample F) :=
  match mfcc self with
  | None => Raise (AttributeError "You haven't created an mfcc value yet!")
  | Some m =>
      let empty_context :=
        replicate (Z.to_nat (batch_size self))
          (replicate (Z.to_nat (n_contexts self))
             (replicate (Z.to_nat (n_ceps self)) fzero)) in
      features ← tf_concat1 (Z.to_nat (n_ceps self))
                    [empty_context; m; empty_context];
      let features := mjoin (M:=list) <$> features in
      contexts ← _context_generator self features;
      features ← tf_stack1 contexts;
      features ← tf_reshape4 (Z.to_nat (tot_contexts self))
                    (Z.to_nat (n_ceps self)) features;
      Ok (set_features self features)
  end.

(** The feature path of [Model.create_graph]. *)
Definition extract_features (audio_tensor : list (list Sample)) (batch_size : Z)
  : result (CarliniWagnerTransforms Sample F) :=
  let feature_extraction := init_default audio_tensor batch_size in
  feature_extraction ← mfcc_ops feature_extraction;
  window_ops feature_extraction.

End FeatureExtraction.

(** ** class Model *)

(** What is observable of a session: the recurrent state of the acoustic
    model, and a log of the resets, runs and printed lines. *)
Inductive event : Type :=
| EvReset
| EvRun
| EvPrint (msg : string).

Record session (RnnState : Type) : Type := mkSession {
  rnn : RnnState;
  log : list event
}.
Arguments mkSession {RnnState}.
Arguments rnn {RnnState}.
Arguments log {RnnState}.

(** A tensor of the graph, as [sess.run] evaluates it: from the feed and
    the recurrent state to a value (or an exception) and the recurrent
    state the run leaves behind. *)
Definition graph_tensor (Feed RnnState A : Type) : Type :=
  option Feed → RnnState → result A * RnnState.

(** The result of [np.squeeze] on a [time, classes] array: a single
    frame loses its time axis. A [Frame] is one row over the classes (29
    of them for the alphabet of the checkpoint, so never of length one). *)
Inductive ndarray (Frame : Type) : Type :=
| Arr1 (row : Frame)
| Arr2 (rows : list Frame).
Arguments Arr1 {Frame}.
Arguments Arr2 {Frame}.

(** What the model calls outside the repository. Logits are
    [list (list Frame)]: [batch, time, classes] or [time, batch, classes];
    a hypothesis is the tuple [(probability, text)] of [ds_ctcdecoder].

    - [zero_state]: the state [outputs['initialize_state']] assigns to
      the recurrent variables.
    - [ctc_beam_search_decoder probs beam_width] and
      [ctc_beam_search_decoder_batch probs seq_lengths beam_width
      num_processes]: [ds_ctcdecoder], with [Config.alphabet] and the
      scorer fixed.
    - [tf_ctc_beam_search_dense logits lengths merge_repeated beam_width]:
      [tf.nn.ctc_beam_search_decoder] followed by
      [tf.sparse.to_dense(tf_decode[0])]; building the ops may fail, the
      dense labels are a tensor of the graph.
    - [tf_ctc_greedy_decoder logits lengths merge_repeated]:
      [tf.nn.ctc_greedy_decoder] with [tf.sparse.to_dense(tf_decode[0])];
      the dense labels and [log_probs].
    - [cpu_count]: [multiprocessing.cpu_count()]. *)
Class Backend (Frame Score Feed RnnState : Type) : Type := {
  zero_state : RnnState;
  ctc_beam_search_decoder : ndarray Frame → Z → result (list (Score * string));
  ctc_beam_search_decoder_batch :
    list (list Frame) → list Z → Z → Z → result (list (list (Score * string)));
  tf_ctc_beam_search_dense :
    option (list (list Frame)) → list Z → bool → Z →
    result (graph_tensor Feed RnnState (list (list Z)));
  tf_ctc_greedy_decoder :
    option (list (list Frame)) → list Z → bool →
    result (graph_tensor Feed RnnState (list (list Z))
            * graph_tensor Feed RnnState (list (list Score)));
  cpu_count : Z
}.

(** Session code threads the session and may raise. *)
Definition M (RnnState A : Type) : Type :=
  session RnnState → result A * session RnnState.

#[global] Instance M_ret {RnnState} : MRet (M RnnState) := λ A a s, (Ok a, s).

#[global] Instance M_bind {RnnState} : MBind (M RnnState) := λ A B f m s,
  match m s with
  | (Ok a, s') => f a s'
  | (Raise e, s') => (Raise e, s')
  end.

Definition raise {RnnState A} (e : exn) : M RnnState A := λ s, (Raise e, s).

Definition lift {RnnState A} (r : result A) : M RnnState A := λ s, (r, s).

Definition print {RnnState} (msg : string) : M RnnState unit :=
  λ s, (Ok tt, mkSession (rnn s) (log s ++ [EvPrint msg])).

(** A session computation whose outcome does not depend on the session
    it starts from. *)
Definition oblivious {RnnState A} (m : M RnnState A) : Prop :=
  ∀ s1 s2, (m s1).1 = (m s2).1.

(** The attributes of a model that [inference] reads. The session, the
    alphabet and the scorer live in the [Backend]. *)
Record Model (Frame Feed RnnState : Type) : Type := mkModel {
  tokens : string;
  decoder : option string;
  beam_width : Z;
  raw_logits : graph_tensor Feed RnnState (list (list Frame));
  logits : graph_tensor Feed RnnState (list (list Frame))
}.
Arguments mkModel {Frame Feed RnnState}.
Arguments tokens {Frame Feed RnnState}.
Arguments decoder {Frame Feed RnnState}.
Arguments beam_width {Frame Feed RnnState}.
Arguments raw_logits {Frame Feed RnnState}.
Arguments logits {Frame Feed RnnState}.

(** [batch.audios.feature_lengths] and [batch.size]. *)
Record Batch : Type := mkBatch {
  feature_lengths : list Z;
  size : Z
}.

(** What [inference] returns, by strategy: the decodings of [tf]; the
    pair [(decodings, probs)] of [ds] without and with [top_five] and of
    [batch]; the [(tf_outputs, probs)] tuple of [greedy]. *)
Inductive output (Score : Type) : Type :=
| OutTexts (decodings : list string)
| OutBest (decodings : string) (probs : Score)
| OutTuples (decodings : list (Score * string)) (probs : list (Score * string))
| OutLists (decodings : list string) (probs : list Score)
| OutGreedy (decodings : list string * list Score).
Arguments OutTexts {Score}.
Arguments OutBest {Score}.
Arguments OutTuples {Score}.
Arguments OutLists {Score}.
Arguments OutGreedy {Score}.

Section Model.
Context {Frame Score Feed RnnState : Type}.
Context `{backend : Backend Frame Score Feed RnnState}.

(** [self.sess.run(t, feed_dict=feed)]. *)
Definition sess_run {A} (t : graph_tensor Feed RnnState A)
    (feed : option Feed) : M RnnState A :=
  λ s, let '(r, k) := t feed (rnn s) in (r, mkSession k (log s ++ [EvRun])).

(** [reset_state]: [self.sess.run(self.__reset_rnn_state)]. *)
Definition reset_state : M RnnState unit :=
  λ s, (Ok tt, mkSession zero_state (log s ++ [EvReset])).

(** [tf_run]. *)
Definition tf_run {A} (t : graph_tensor Feed RnnState A)
    (feed : option Feed) : M RnnState A :=
  reset_state ;;
  outs ← sess_run t feed;
  reset_state ;;
  mret outs.

(** [get_logits]: without a feed the assertion fails, the handler prints
    and the method falls off its end, returning [None]. *)
Definition get_logits (logits : graph_tensor Feed RnnState (list (list Frame)))
    (feed : option Feed) : M RnnState (option (list (list Frame))) :=
  match feed with
  | None =>
      print "You're trying to `get_logits` without providing a feed: " ;;
      mret None
  | Some _ =>
      result ← tf_run logits feed;
      mret (Some result)
  end.

Definition np_squeeze (logits : list Frame) : ndarray Frame :=
  match logits with
  | [row] => Arr1 row
  | _ => Arr2 logits
  end.

(** [ds_decode]. *)
Definition ds_decode (self : Model Frame Feed RnnState) (logits : list Frame)
  : result (list (Score * string)) :=
  ctc_beam_search_decoder (np_squeeze logits) (beam_width self).

(** [ds_decode_batch]. [logits.shape] on [None] raises. *)
Definition ds_decode_batch (self : Model Frame Feed RnnState)
    (logits : option (list (list Frame))) (lengths : list Z)
  : result (list (list (Score * string))) :=
  l ← py_index lengths 0;
  match logits with
  | None => Raise (AttributeError "'NoneType' object has no attribute 'shape'")
  | Some logits =>
      ctc_beam_search_decoder_batch logits
        ((λ _, l) <$> py_range 0 (Z.of_nat (length logits)) 1)
        (beam_width self) (cpu_count `div` 2)
  end.

(** The comprehension shared by both TensorFlow decoders:
    [''.join([tokens[int(x)] for x in row])] for every row. *)
Definition to_text (tokens : string) (dense : list (list Z))
  : result (list string) :=
  for_each (λ row, cs ← for_each (py_str_index tokens) row;
                   Ok (String.string_of_list_ascii cs)) dense.

(** [tf_beam_decode]. *)
Definition tf_beam_decode (self : Model Frame Feed RnnState)
    (logits : option (list (list Frame))) (features_lengths : list Z)
    (tokens : string) : M RnnState (list string) :=
  dense ← lift (tf_ctc_beam_search_dense logits features_lengths false
                  (beam_width self));
  tf_dense ← tf_run dense None;
  lift (to_text tokens tf_dense).

(** [tf_greedy_decode], with its default [merge_repeated=True]. *)
Definition tf_greedy_decode (self : Model Frame Feed RnnState)
    (logits : option (list (list Frame))) (features_lengths : list Z)
    (tokens : string) : M RnnState (list string * list Score) :=
  ops ← lift (tf_ctc_greedy_decoder logits features_lengths true);
  tf_dense ← tf_run ops.1 None;
  tf_outputs ← lift (to_text tokens tf_dense);
  probs ← tf_run ops.2 None;
  probs ← lift (for_each (λ prob, py_index prob 0) probs);
  mret (tf_outputs, probs).

(** [logits] when given, [get_logits] otherwise. *)
Definition logits_or_run (t : graph_tensor Feed RnnState (list (list Frame)))
    (feed : option Feed) (logits : option (list (list Frame)))
  : M RnnState (option (list (list Frame))) :=
  match logits with
  | None => get_logits t feed
  | Some _ => mret logits
  end.

(** [for x in logits] on an optional value. *)
Definition iterate {A} (logits : option (list A)) : result (list A) :=
  match logits with
  | None => Raise (TypeError "'NoneType' object is not iterable")
  | Some l => Ok l
  end.

(** [d[j][i]], a hypothesis of an item. *)
Definition hyp_at (d : list (list (Score * string))) (j i : nat)
  : result (Score * string) :=
  item ← py_index d j; py_index item i.

(** The index pairs of [for i in range(0, 5) for j in range(n)]. *)
Definition rank_then_item (n : Z) : list (nat * nat) :=
  i ← Z.to_nat <$> py_range 0 5 1;
  j ← Z.to_nat <$> py_range 0 n 1;
  [(i, j)].

(** [inference]. *)
Definition inference (self : Model Frame Feed RnnState) (batch : Batch)
    (feed : option Feed) (logits_arg : option (list (list Frame)))
    (decoder_arg : option string) (top_five : bool)
  : M RnnState (output Score) :=
  let decoder_sel := if truthy decoder_arg then decoder_arg else decoder self in
  if decide (decoder_sel = Some "tf") then
    if top_five then
      raise (NotImplementedError "top_five is not implemented for the tf decoder")
    else
      lg ← logits_or_run (raw_logits self) feed logits_arg;
      decodings ← tf_beam_decode self lg (feature_lengths batch) (tokens self);
      mret (OutTexts decodings)
  else if bool_decide (decoder_sel = Some "ds") || negb (truthy decoder_sel) then
    lg ← logits_or_run (logits self) feed logits_arg;
    items ← lift (iterate lg);
    decoding_probs ← lift (for_each (ds_decode self) items);
    if top_five then
      probs ← lift (for_each (λ i, hyp_at decoding_probs i 0)
                      (Z.to_nat <$> py_range 0 5 1));
      decodings ← lift (for_each (λ i, hyp_at decoding_probs i 1)
                          (Z.to_nat <$> py_range 0 5 1));
      mret (OutTuples decodings probs)
    else
      probs ← lift (h ← hyp_at decoding_probs 0 0; Ok h.1);
      decodings ← lift (h ← hyp_at decoding_probs 0 0; Ok h.2);
      mret (OutBest decodings probs)
  else if decide (decoder_sel = Some "batch") then
    lg ← logits_or_run (logits self) feed logits_arg;
    decoding_probs ← lift (ds_decode_batch self lg (feature_lengths batch));
    if top_five then
      probs ← lift (for_each (λ ij, h ← hyp_at decoding_probs ij.2 ij.1; Ok h.1)
                      (rank_then_item (size batch)));
      decodings ← lift (for_each
                          (λ ij, h ← hyp_at decoding_probs ij.2 ij.1; Ok h.2)
                          (rank_then_item (size batch)));
      mret (OutLists decodings probs)
    else
      probs ← lift (for_each (λ j, h ← hyp_at decoding_probs j 0; Ok h.1)
                      (Z.to_nat <$> py_range 0 (size batch) 1));
      decodings ← lift (for_each (λ j, h ← hyp_at decoding_probs j 0; Ok h.2)
                          (Z.to_nat <$> py_range 0 (size batch) 1));
      mret (OutLists decodings probs)
  else if decide (decoder_sel = Some "greedy") then
    lg ← logits_or_run (raw_logits self) feed logits_arg;
    decodings ← tf_greedy_decode self lg (feature_lengths batch) (tokens self);
    mret (OutGreedy decodings)
  else
    raise (Exception_ "Please choose a valid decoder -- tf, greedy, ds or batch").

(** The batching rule of [ds_ctcdecoder]: with a positive number of
    worker processes and one sequence length per item, none beyond the
    item's frames, item [i] of the batch is decoded as a two-dimensional
    array of its first [seq_lengths[i]] frames. *)
Definition batch_decoder_law : Prop :=
  ∀ probs lens bw np,
    0 < np →
    Forall2 (λ (item : list Frame) n, 0 ≤ n ≤ Z.of_nat (length item))
      probs lens →
    ctc_beam_search_decoder_batch probs lens bw np
    = for_each (λ pn, ctc_beam_search_decoder
                        (Arr2 (take (Z.to_nat pn.2) pn.1)) bw)
        (zip probs lens).

End Model.
Arguments batch_decoder_law {Frame Score Feed RnnState} backend.

(** ** A small concrete instance

    Rational samples for the feature path, and a one-label-per-frame
    decoder family for the model. They instantiate the statements below
    at concrete inputs. *)

Module Toy.

(** Features: rationals, with 0.97 exact, and a stand-in for the spectral
    steps that returns 26 copies of the frame's sum. *)
#[global] Instance numerics : Numerics Z Q := {
  cast := inject_Z;
  fzero := inject_Z 0;
  c097 := Qmake 97 100;
  fsub := Qminus;
  fmul := Qmult;
  frame_mfcc := λ fr, replicate 26 (foldr Qplus (inject_Z 0) fr)
}.

Definition wave (L : nat) : list Z :=
  (λ k : nat, Z.of_nat k `mod` 7 - 3) <$> seq 0 L.

(** Model: a frame is the label it favours, a score is an integer, the
    acoustic model hands the feed through and counts its runs in the
    recurrent state. *)
Definition alphabet : string := " abcdefghijklmnopqrstuvwxyz'-".

Definition label_text (rows : list Z) : result string :=
  cs ← for_each (py_str_index alphabet) rows;
  Ok (String.string_of_list_ascii cs).

Definition primes (k : nat) : string := String.concat "" (replicate k "'").

(** Up to six hypotheses: the label string, then the same with more and
    more apostrophes, at decreasing score. A one-dimensional array is
    rejected. *)
Definition decode (probs : ndarray Z) (beam_width : Z)
  : result (list (Z * string)) :=
  match probs with
  | Arr1 _ => Raise (TypeError "Array must have 2 dimensions")
  | Arr2 rows =>
      text ← label_text rows;
      Ok ((λ k : nat, (- Z.of_nat (length rows) - Z.of_nat k,
                       String.append text (primes k)))
            <$> seq 0 (Z.to_nat (Z.min beam_width 6)))
  end.

(** Every item is decoded on its first [seq_lengths[i]] frames. *)
Definition decode_batch (probs : list (list Z)) (seq_lengths : list Z)
    (beam_width num_processes : Z) : result (list (list (Z * string))) :=
  if bool_decide (0 < num_processes ∧ length seq_lengths = length probs)
  then for_each (λ pn, decode (Arr2 (take (Z.to_nat pn.2) pn.1)) beam_width)
         (zip probs seq_lengths)
  else Raise (ValueError "must have one sequence length per batch element").

(** Labels of item [b] in time-major logits, cut at its length. *)
Definition item_labels (lg : list (list Z)) (b : nat) (n : Z) : list Z :=
  take (Z.to_nat n) ((λ fr, default 0 (fr !! b)) <$> lg).

Definition dense_labels (lg : list (list Z)) (lens : list Z)
  : list (list Z) :=
  (λ bn, item_labels lg bn.1 bn.2) <$> zip (seq 0 (length lens)) lens.

Definition beam_dense (logits : option (list (list Z))) (lens : list Z)
    (merge_repeated : bool) (beam_width : Z)
  : result (graph_tensor (list (list Z)) Z (list (list Z))) :=
  match logits with
  | None => Raise (ValueError "None values not supported.")
  | Some lg => Ok (λ _ k, (Ok (dense_labels lg lens), k + 1))
  end.

Definition greedy (logits : option (list (list Z))) (lens : list Z)
    (merge_repeated : bool)
  : result (graph_tensor (list (list Z)) Z (list (list Z))
            * graph_tensor (list (list Z)) Z (list (list Z))) :=
  match logits with
  | None => Raise (ValueError "None values not supported.")
  | Some lg => Ok (λ _ k, (Ok (dense_labels lg lens), k + 1),
                   λ _ k, (Ok ((λ n, [- n]) <$> lens), k + 1))
  end.

#[global] Instance backend : Backend Z Z (list (list Z)) Z := {
  zero_state := 0;
  ctc_beam_search_decoder := decode;
  ctc_beam_search_decoder_batch := decode_batch;
  tf_ctc_beam_search_dense := beam_dense;
  tf_ctc_greedy_decoder := greedy;
  cpu_count := 4
}.

Definition acoustic : graph_tensor (list (list Z)) Z (list (list Z)) :=
  λ feed k,
    match feed with
    | Some x => (Ok x, k + 1)
    | None => (Raise (ValueError "You must feed a value for placeholder"), k)
    end.

Definition model : Model Z (list (list Z)) Z :=
  mkModel alphabet (Some "ds") 500 acoustic acoustic.

Definition fresh : session Z := mkSession 0 [].

End Toy.

Section SessionInvariant.
Context {Frame Score Feed RnnState : Type}.
Context `{backend : Backend Frame Score Feed RnnState}.

(** A session computation that, when it returns, leaves the recurrent
    state at zero, or has left it alone and added only printed lines to
    the log. *)
Definition leaves_clean {A} (m : M RnnState A) : Prop :=
  ∀ s a s', m s = (Ok a, s') →
    rnn s' = zero_state
    ∨ (rnn s' = rnn s ∧ ∃ msgs, log s' = log s ++ (EvPrint <$> msgs)).

End SessionInvariant.

(** ** Checkpoints *)

(** [s.startswith(prefix)]. *)
Definition startswith (s prefix : string) : bool := String.prefix prefix s.

(** What [load_checkpoint] calls outside the repository.

    - [op_name v]: [v.op.name] of a variable of the graph.
    - [tf_train_Saver mapping]: [tf.train.Saver(mapping)]; building the
      saver may fail.
    - [get_checkpoint_state dir]: [tf.train.get_checkpoint_state(dir)],
      [None] when the directory has no checkpoint state; a state is a
      protocol-buffer message and counts as true.
    - [model_checkpoint_path]: the attribute of that name.
    - [saver_restore saver path]: [saver.restore(self.sess, path)], on
      the values of the session's variables. *)
Class Checkpoints (Var SaverT Ckpt Weights : Type) : Type := {
  op_name : Var → string;
  tf_train_Saver : gmap string Var → result SaverT;
  get_checkpoint_state : string → option Ckpt;
  model_checkpoint_path : Ckpt → string;
  saver_restore : SaverT → string → Weights → result unit * Weights
}.

(** The attributes of a model that [load_checkpoint] reads and writes,
    with the variable values of [self.sess]. *)
Record Loader (SaverT Weights : Type) : Type := mkLoader {
  checkpoint_dir : string;
  saver : option SaverT;
  weights : Weights
}.
Arguments mkLoader {SaverT Weights}.
Arguments checkpoint_dir {SaverT Weights}.
Arguments saver {SaverT Weights}.
Arguments weights {SaverT Weights}.

Section Checkpoint.
Context {Var SaverT Ckpt Weights : Type}.
Context `{checkpoints : Checkpoints Var SaverT Ckpt Weights}.

(** The dict comprehension over [tf.global_variables()]: a later
    variable of the same name replaces an earlier one. *)
Definition saver_mapping (global_variables : list Var) : gmap string Var :=
  foldl (λ mapping v,
           if negb (startswith (op_name v) "previous_state_")
              && negb (startswith (op_name v) "qq")
           then <[op_name v := v]> mapping
           else mapping)
    ∅ global_variables.

(** [load_checkpoint]: the outcome and the attributes afterwards. *)
Definition load_checkpoint (global_variables : list Var)
    (self : Loader SaverT Weights) : result unit * Loader SaverT Weights :=
  let mapping := saver_mapping global_variables in
  match tf_train_Saver mapping with
  | Raise e => (Raise e, self)
  | Ok saver =>
      let self := mkLoader (checkpoint_dir self) (Some saver) (weights self) in
      match get_checkpoint_state (checkpoint_dir self) with
      | None =>
          (Raise (Exception_ ("Not a valid checkpoint directory ("
                              ++ checkpoint_dir self ++ ")")), self)
      | Some checkpoint =>
          let checkpoint_path := model_checkpoint_path checkpoint in
          let '(r, w) := saver_restore saver checkpoint_path (weights self) in
          (r, mkLoader (checkpoint_dir self) (Some saver) w)
      end
  end.

End Checkpoint.

(** A concrete checkpoint store: variables are their names, a saver is
    its mapping, the weights are the names restored so far, and only the
    directory [ckpt] holds a checkpoint. *)
Module ToyCheckpoint.

#[global] Instance checkpoints
  : Checkpoints string (gmap string string) string (list string) := {
  op_name := λ v, v;
  tf_train_Saver := λ mapping,
    if decide (mapping = ∅) then Raise (ValueError "No variables to save")
    else Ok mapping;
  get_checkpoint_state := λ dir,
    if String.eqb dir "ckpt" then Some "ckpt/model.v0.4.1" else None;
  model_checkpoint_path := λ c, c;
  saver_restore := λ saver path w, (Ok tt, w ++ (map_to_list saver).*1)
}.

Definition variables : list string :=
  ["layer_1/weights"; "previous_state_c"; "layer_1/bias"; "qq_delta";
   "previous_state_h"; "layer_6/bias"].

End ToyCheckpoint.

(** * Facts *)

(** ** Ranges and slices *)

Lemma length_py_range (start stop step : Z) :
  length (py_range start stop step) = range_len start stop step.
Proof. unfold py_range. by rewrite length_fmap, length_seq. Qed.

Lemma py_range_empty (start stop step : Z) :
  stop ≤ start → py_range start stop step = [].
Proof.
  intros Hle. unfold py_range, range_len.
  rewrite bool_decide_eq_false_2 by lia. done.
Qed.

(** The number of multiples of [step] below [stop]. *)
Lemma range_len_between (stop step q : Z) :
  0 < step → 0 ≤ q → q * step < stop ≤ (q + 1) * step →
  range_len 0 stop step = Z.to_nat (q + 1).
Proof.
  intros Hstep Hq [Hlo Hhi]. unfold range_len.
  rewrite bool_decide_eq_true_2 by nia.
  replace ((stop - 0 - 1) / step) with q; [done|].
  apply Z.div_unique with (r := stop - 1 - q * step); lia.
Qed.

Lemma py_range_lookup (start stop step : Z) (k : nat) (i : Z) :
  py_range start stop step !! k = Some i ↔
  i = start + Z.of_nat k * step ∧ (k < range_len start stop step)%nat.
Proof.
  unfold py_range. rewrite list_lookup_fmap_Some. split.
  - intros (k' & -> & Hk). apply lookup_seq in Hk as [-> Hlt]. done.
  - intros [-> Hlt]. exists k. split; [done|]. by apply lookup_seq.
Qed.

Lemma py_range_unit (n : nat) : py_range 0 (Z.of_nat n) 1 = Z.of_nat <$> seq 0 n.
Proof.
  unfold py_range, range_len. destruct n as [|n].
  - done.
  - rewrite bool_decide_eq_true_2 by lia.
    rewrite Z.div_1_r.
    replace (Z.to_nat (Z.of_nat (S n) - 0 - 1 + 1)) with (S n) by lia.
    apply list_fmap_ext. intros _ k _. lia.
Qed.

Lemma length_py_slice_inside {A} (i w : Z) (l : list A) :
  0 ≤ i → 0 ≤ w → i + w ≤ Z.of_nat (length l) →
  length (py_slice i (i + w) l) = Z.to_nat w.
Proof.
  intros Hi Hw Hle. unfold py_slice.
  rewrite length_take, length_drop. lia.
Qed.

Lemma py_slice_whole {A} (j : Z) (l : list A) :
  Z.of_nat (length l) ≤ j → py_slice 0 j l = l.
Proof.
  intros Hle. unfold py_slice. rewrite drop_0. apply take_ge. lia.
Qed.

(** ** Shapes *)

Lemma shape1_shape2 {A} (B w : nat) (t : list (list A)) :
  (1 ≤ B)%nat → shape2 B w t → shape1 t = Z.of_nat w.
Proof.
  intros HB [Hlen Hrows]. destruct t as [|r t]; simpl in *; [lia|].
  apply Forall_cons in Hrows as [-> _]. done.
Qed.

Lemma shape2_lengths {A} (B w : nat) (t : list (list A)) :
  shape2 B w t → length <$> t = replicate B w.
Proof.
  intros [<- Hrows]. induction Hrows as [|r t Hr _ IH]; [done|].
  rewrite fmap_cons, Hr, IH. done.
Qed.

Lemma shape3_join {A} (B n c : nat) (t : list (list (list A))) :
  shape3 B n c t → shape2 B (n * c) (mjoin (M:=list) <$> t).
Proof.
  intros [Hlen Hitems]. split; [by rewrite length_fmap|].
  apply Forall_fmap. eapply Forall_impl; [exact Hitems|].
  intros it [Hn Hrows]; simpl.
  rewrite length_join, (sum_list_fmap_same c) by done. by rewrite Hn.
Qed.

Lemma tf_stack1_shape {A} (B w : nat) (values : list (list (list A))) :
  values ≠ [] → Forall (shape2 B w) values →
  ∃ t, tf_stack1 values = Ok t ∧ shape3 B (length values) w t.
Proof.
  intros Hne Hall. destruct values as [|v0 vs]; [done|].
  pose proof (Forall_inv Hall) as Hv0.
  unfold tf_stack1. rewrite decide_True.
  - eexists; split; [done|]. split.
    + rewrite length_fmap, length_seq. apply Hv0.
    + apply Forall_fmap, Forall_seq. intros b Hb. unfold compose. split.
      * by rewrite length_fmap.
      * apply Forall_fmap. eapply Forall_impl; [exact Hall|].
        intros v [Hlen Hrows]. unfold compose.
        destruct Hv0 as [Hlen0 _].
        assert (is_Some (v !! b)) as [r Hr].
        { apply lookup_lt_is_Some_2. lia. }
        rewrite Hr; simpl. exact (Forall_lookup_1 _ _ _ _ Hrows Hr).
  - eapply Forall_impl; [exact Hall|]. intros v Hv.
    by rewrite (shape2_lengths _ _ _ Hv), (shape2_lengths _ _ _ Hv0).
Qed.

Lemma chunks_shape {A} (k q : nat) (l : list A) :
  k ≠ 0%nat → length l = (q * k)%nat →
  length (chunks k l) = q ∧ Forall (λ r, length r = k) (chunks k l).
Proof.
  intros Hk Hlen. unfold chunks.
  replace (length l / k)%nat with q
    by (rewrite Hlen; symmetry; by apply Nat.div_mul).
  clear -Hlen. revert l Hlen.
  induction q as [|q IH]; intros l Hlen; simpl; [done|].
  destruct (IH (drop k l)) as [IH1 IH2]; [rewrite length_drop; lia|].
  split; [by rewrite IH1|].
  constructor; [|done]. rewrite length_take. lia.
Qed.

Lemma tf_concat1_pad {A} (B p n c : nat) (x : A) (m : list (list (list A))) :
  shape3 B n c m →
  let empty_context := replicate B (replicate p (replicate c x)) in
  ∃ t, tf_concat1 c [empty_context; m; empty_context] = Ok t
       ∧ shape3 B (p + n + p) c t.
Proof.
  intros [Hlen Hitems] ec.
  assert (Hec : length ec = B) by apply length_replicate.
  assert (Hrows : Forall (Forall (λ r : list A, length r = c)) ec).
  { apply Forall_replicate, Forall_replicate, length_replicate. }
  unfold tf_concat1. rewrite decide_True.
  - eexists; split; [done|]. split.
    + by rewrite length_fmap, length_seq.
    + apply Forall_fmap, Forall_seq. intros b Hb. unfold compose.
      cbn [fmap list_fmap mjoin list_join].
      assert (ec !! b = Some (replicate p (replicate c x))) as ->
        by (apply lookup_replicate_2; lia).
      assert (is_Some (m !! b)) as [it Hit]
        by (apply lookup_lt_is_Some_2; lia).
      rewrite Hit. cbn [default]. unfold id.
      destruct (Forall_lookup_1 _ _ _ _ Hitems Hit) as [Hn Hc].
      rewrite app_nil_r. split.
      * rewrite !length_app, !length_replicate. lia.
      * rewrite !Forall_app. split_and!; [|done|];
          apply Forall_replicate, length_replicate.
  - repeat constructor; try done; try lia.
    eapply Forall_impl; [exact Hitems|]. by intros it [_ ?].
Qed.

(** ** Feature extraction *)

Section FeatureFacts.
Context {Sample F : Type} `{numerics : Numerics Sample F}.

(** *** Pre-emphasis *)

Lemma preemphasis_row_length (a : list F) :
  length (preemphasis_row a) = length a.
Proof.
  unfold preemphasis_row.
  rewrite length_app, length_take, length_zip_with, length_drop,
    length_fmap, length_take. lia.
Qed.



Lemma preemphasis_shape (B L : nat) (audio : list (list F)) :
  shape2 B L audio → shape2 B L (preemphasis audio).
Proof.
  intros [Hlen Hrows]. split; [by unfold preemphasis; rewrite length_fmap|].
  apply Forall_fmap. eapply Forall_impl; [exact Hrows|].
  intros a Ha. unfold compose. by rewrite preemphasis_row_length.
Qed.

(** *** Framing *)

(** With [q * step < size - step <= (q + 1) * step] the generator
    yields [q + 1] slices; each is whole when the last one fits. *)
Lemma window_generator_shape (self : CarliniWagnerTransforms Sample F)
    (B L : nat) (q : Z) (audio : list (list F)) :
  0 < window_step self → 0 ≤ window_size self → 0 ≤ q →
  q * window_step self < Z.of_nat L - window_step self
    ≤ (q + 1) * window_step self →
  q * window_step self + window_size self ≤ Z.of_nat L →
  shape2 B L audio →
  length (_window_generator self audio (Z.of_nat L)) = Z.to_nat (q + 1)
  ∧ Forall (shape2 B (Z.to_nat (window_size self)))
      (_window_generator self audio (Z.of_nat L)).
Proof.
  intros Hstep Hsize Hq Hband Hfit [Hlen Hrows].
  pose proof (range_len_between _ _ _ Hstep Hq Hband) as Hn.
  unfold _window_generator. split.
  - by rewrite length_fmap, length_py_range.
  - apply Forall_fmap, Forall_lookup. intros k i Hk.
    apply py_range_lookup in Hk as [-> Hk]. rewrite Hn in Hk.
    unfold compose. split; [by rewrite length_fmap|].
    apply Forall_fmap. eapply Forall_impl; [exact Hrows|].
    intros row Hrow. unfold compose.
    assert (Z.of_nat k * window_step self ≤ q * window_step self) by nia.
    simpl in Hrow. apply length_py_slice_inside; nia.
Qed.

(** *** Context stacking *)

Lemma context_generator_shape (self : CarliniWagnerTransforms Sample F)
    (B n : nat) (feats : list (list F)) :
  0 < n_ceps self → 0 ≤ tot_contexts self → (1 ≤ B)%nat → (1 ≤ n)%nat →
  shape2 B (Z.to_nat ((Z.of_nat n - 1 + tot_contexts self) * n_ceps self))
    feats →
  ∃ g, _context_generator self feats = Ok g
       ∧ length g = n
       ∧ Forall (shape2 B (Z.to_nat (tot_contexts self * n_ceps self))) g.
Proof.
  intros Hc Htot HB Hn Hshape.
  pose proof (shape1_shape2 _ _ _ HB Hshape) as Hs1.
  destruct Hshape as [Hlen Hrows].
  assert (Hrl : range_len 0
            (shape1 feats - tot_contexts self * n_ceps self + 1)
            (n_ceps self) = n).
  { rewrite (range_len_between _ _ (Z.of_nat n - 1)); [lia|lia|lia|].
    rewrite Hs1. nia. }
  unfold _context_generator, dimension_sub.
  rewrite decide_False by nia. rewrite decide_False by (rewrite Hs1; nia).
  cbn [mbind result_bind]. eexists. split; [done|]. split.
  - by rewrite length_fmap, length_py_range.
  - apply Forall_fmap, Forall_lookup. intros k i Hk.
    apply py_range_lookup in Hk as [-> Hk]. rewrite Hrl in Hk.
    unfold compose. split; [by rewrite length_fmap|].
    apply Forall_fmap. eapply Forall_impl; [exact Hrows|].
    intros row Hrow. unfold compose.
    assert (Z.of_nat k * n_ceps self ≤ (Z.of_nat n - 1) * n_ceps self) by nia.
    simpl in Hrow. apply length_py_slice_inside; nia.
Qed.

Lemma tf_reshape4_shape (B n tot c : nat) (t : list (list (list F))) :
  tot ≠ 0%nat → c ≠ 0%nat → shape3 B n (tot * c) t →
  ∃ f, tf_reshape4 tot c t = Ok f ∧ shape4 B n tot c f.
Proof.
  intros Htot Hc [Hlen Hitems].
  assert (Hflat : Forall (λ it : list (list F),
                    length (mjoin it) = (n * tot * c)%nat) t).
  { eapply Forall_impl; [exact Hitems|]. intros it [Hn Hrows].
    rewrite length_join, (sum_list_fmap_same (tot * c)) by done.
    rewrite Hn. lia. }
  unfold tf_reshape4. rewrite decide_True.
  - eexists; split; [done|]. split; [by rewrite length_fmap|].
    apply Forall_fmap. eapply Forall_impl; [exact Hflat|].
    intros it Hit. unfold compose. cbv beta in Hit.
    destruct (chunks_shape c (n * tot) (mjoin it)) as [Hq Hr]; [done|lia|].
    destruct (chunks_shape tot n (chunks c (mjoin it))) as [Hq' Hr'];
      [done|lia|].
    split; [done|].
    apply Forall_lookup. intros i blk Hblk. split.
    + exact (Forall_lookup_1 _ _ _ _ Hr' Hblk).
    + exact (Forall_lookup_1 _ _ _ _
               (Forall_reshape _ _ _ Hr) Hblk).
  - eapply Forall_impl; [exact Hflat|]. intros it Hit. cbv beta in Hit.
    split; [lia|].
    rewrite Hit. replace (n * tot * c)%nat with (n * (tot * c))%nat by lia.
    apply Nat.Div0.mod_mul.
Qed.

(** [window_ops] on an MFCC tensor of [n >= 1] frames of [n_ceps]
    coefficients. *)
Lemma window_ops_shape (self : CarliniWagnerTransforms Sample F)
    (B n : nat) (m : list (list (list F))) :
  0 < n_ceps self → 0 ≤ n_contexts self →
  tot_contexts self = n_contexts self * 2 + 1 →
  batch_size self = Z.of_nat B → (1 ≤ B)%nat → (1 ≤ n)%nat →
  mfcc self = Some m → shape3 B n (Z.to_nat (n_ceps self)) m →
  ∃ f, window_ops self = Ok (set_features self f)
       ∧ shape4 B n (Z.to_nat (tot_contexts self)) (Z.to_nat (n_ceps self)) f.
Proof.
  intros Hc Hp Htot HB HB1 Hn Hm Hshape.
  unfold window_ops. rewrite Hm, HB, Nat2Z.id.
  destruct (tf_concat1_pad B (Z.to_nat (n_contexts self)) n
              (Z.to_nat (n_ceps self)) fzero m Hshape) as (t1 & -> & Ht1).
  cbn [mbind result_bind].
  apply shape3_join in Ht1.
  destruct (context_generator_shape self B n (mjoin (M:=list) <$> t1))
    as (g & -> & Hgl & Hgs); [lia|lia|done|done| |].
  { replace (Z.to_nat ((Z.of_nat n - 1 + tot_contexts self) * n_ceps self))
      with ((Z.to_nat (n_contexts self) + n + Z.to_nat (n_contexts self))
            * Z.to_nat (n_ceps self))%nat by nia.
    exact Ht1. }
  cbn [mbind result_bind].
  assert (Hne : g ≠ []).
  { intros Hnil. rewrite Hnil in Hgl. simpl in Hgl. lia. }
  destruct (tf_stack1_shape B _ _ Hne Hgs) as (t2 & -> & Ht2).
  cbn [mbind result_bind]. rewrite Hgl in Ht2.
  destruct (tf_reshape4_shape B n (Z.to_nat (tot_contexts self))
              (Z.to_nat (n_ceps self)) t2) as (f & -> & Hf); [lia|lia| |].
  { replace (Z.to_nat (tot_contexts self) * Z.to_nat (n_ceps self))%nat
      with (Z.to_nat (tot_contexts self * n_ceps self)) by nia.
    exact Ht2. }
  cbn [mbind result_bind]. by exists f.
Qed.

Lemma mfcc_ops_shape (self : CarliniWagnerTransforms Sample F)
    (B L c : nat) (q : Z) :
  (∀ fr, length fr = Z.to_nat (window_size self) →
         length (frame_mfcc fr) = c) →
  0 < window_step self → 0 ≤ window_size self → 0 ≤ q →
  q * window_step self < Z.of_nat L - window_step self
    ≤ (q + 1) * window_step self →
  q * window_step self + window_size self ≤ Z.of_nat L →
  (1 ≤ B)%nat → batch_size self = Z.of_nat B →
  shape2 B L (audio_input self) →
  ∃ m, mfcc_ops self = Ok (set_mfcc self m)
       ∧ shape3 B (Z.to_nat (q + 1)) c m.
Proof.
  intros Hfm Hstep Hsize Hq Hband Hfit HB Hbs Hin.
  assert (Haudio : shape2 B L (preemphasis
                                 (fmap (M:=list) cast <$> audio_input self))).
  { apply preemphasis_shape. destruct Hin as [Hlen Hrows].
    split; [by rewrite length_fmap|].
    apply Forall_fmap. eapply Forall_impl; [exact Hrows|].
    intros r Hr. unfold compose. by rewrite length_fmap. }
  unfold mfcc_ops. cbv zeta.
  rewrite (shape1_shape2 _ _ _ HB Haudio).
  destruct (window_generator_shape self B L q _ Hstep Hsize Hq Hband Hfit
              Haudio) as [Hgl Hgs].
  assert (Hne : _window_generator self
                  (preemphasis
                     (fmap (M:=list) cast <$> audio_input self))
                  (Z.of_nat L) ≠ []).
  { intros Hnil. rewrite Hnil in Hgl. simpl in Hgl. lia. }
  destruct (tf_stack1_shape B _ _ Hne Hgs) as (w & -> & Hw).
  cbn [mbind result_bind]. rewrite Hgl in Hw.
  destruct Hw as [Hwl Hwi].
  unfold hamming_shape. rewrite decide_True.
  - cbn [mbind result_bind]. unfold matmul_shape.
    rewrite decide_False by lia. rewrite decide_True by lia.
    cbn [mbind result_bind]. eexists; split; [done|].
    split; [by rewrite length_fmap|].
    apply Forall_fmap. eapply Forall_impl; [exact Hwi|].
    intros it [Hn Hrows]. unfold compose. split; [by rewrite length_fmap|].
    apply Forall_fmap. eapply Forall_impl; [exact Hrows|].
    intros fr Hfr. by apply Hfm.
  - eapply Forall_impl; [exact Hwi|]. by intros it [_ ?].
Qed.

(** The feature path on whole windows: [mfcc_ops] gives [j + 1] frames
    of 26 coefficients, which [window_ops] stacks into blocks of 19. *)
Lemma extract_features_on_band (samples : list (list Sample))
    (B L : nat) (j : Z) :
  (∀ fr, length fr = 512%nat → length (frame_mfcc fr) = 26%nat) →
  (1 ≤ B)%nat → shape2 B L samples → 0 ≤ j →
  512 + 320 * j ≤ Z.of_nat L ≤ 640 + 320 * j →
  ∃ t f, extract_features samples
           (Z.of_nat B) = Ok t
         ∧ features t = Some f ∧ shape4 B (Z.to_nat (j + 1)) 19 26 f.
Proof.
  intros Hfm HB Hin Hj HL. unfold extract_features. cbv zeta.
  set (self := init_default samples (Z.of_nat B)).
  assert (Hstep : window_step self = 320) by done.
  assert (Hsize : window_size self = 512) by done.
  destruct (mfcc_ops_shape self B L 26 j) as (m & -> & Hm).
  { exact Hfm. }
  { lia. }
  { lia. }
  { done. }
  { rewrite Hstep. lia. }
  { rewrite Hstep, Hsize. lia. }
  { done. }
  { done. }
  { exact Hin. }
  cbn [mbind result_bind].
  destruct (window_ops_shape (set_mfcc self m) B (Z.to_nat (j + 1)) m)
    as (f & -> & Hf).
  { done. }
  { done. }
  { done. }
  { done. }
  { done. }
  { lia. }
  { done. }
  { exact Hm. }
  by exists (set_features (set_mfcc self m) f), f.
Qed.

(** X4. From the waveform to the stacked features: the lengths on which
    every slice of [_window_generator] is a whole window lie between
    [512 + 320 j] and [640 + 320 j], and give [j + 1] frames. *)
Lemma extract_features_shape (samples : list (list Sample))
    (B L : nat) (j : Z) :
  (∀ fr, length fr = 512%nat → length (frame_mfcc fr) = 26%nat) →
  (1 ≤ B)%nat → shape2 B L samples → 0 ≤ j →
  512 + 320 * j ≤ Z.of_nat L ≤ 640 + 320 * j →
  ∃ t f, extract_features samples
           (Z.of_nat B) = Ok t
         ∧ features t = Some f ∧ shape4 B (Z.to_nat (j + 1)) 19 26 f.
Proof. apply extract_features_on_band. Qed.


(** Framing a waveform shorter than a window of 512 samples, at a step
    of 320: nothing below 321 samples, the waveform itself above. *)
Lemma window_generator_short (self : CarliniWagnerTransforms Sample F)
    (B L : nat) (audio : list (list F)) :
  window_step self = 320 → window_size self = 512 →
  shape2 B L audio → (L < 512)%nat →
  _window_generator self audio (Z.of_nat L)
  = if decide (L ≤ 320)%nat then [] else [audio].
Proof.
  intros Hstep Hsize [_ Hrows] HL.
  unfold _window_generator. rewrite Hstep, Hsize.
  destruct (decide (L ≤ 320)%nat) as [Hle|Hgt].
  - by rewrite py_range_empty by lia.
  - unfold py_range. rewrite (range_len_between _ _ 0) by lia.
    change (Z.to_nat (0 + 1)) with 1%nat.
    cbn [seq fmap list_fmap].
    change (0 + Z.of_nat 0 * 320) with 0.
    f_equal. transitivity (id <$> audio); [|apply list_fmap_id].
    apply Forall_fmap_ext_1.
    eapply Forall_impl; [exact Hrows|]. intros row Hrow. cbv beta in Hrow.
    unfold id. apply py_slice_whole. lia.
Qed.

Lemma cast_preemphasis_shape (B L : nat) (samples : list (list Sample)) :
  shape2 B L samples →
  shape2 B L (preemphasis (fmap (M:=list) cast <$> samples)).
Proof.
  intros [Hlen Hrows]. apply preemphasis_shape.
  split; [by rewrite length_fmap|].
  apply Forall_fmap. eapply Forall_impl; [exact Hrows|].
  intros r Hr. unfold compose. by rewrite length_fmap.
Qed.

(** In this model of the TensorFlow shape rules, [mfcc_ops] raises on
    every waveform shorter than a window: stacking no frame fails, and
    one short frame does not match the Hamming window. *)
Lemma mfcc_ops_short_waveform_raises (samples : list (list Sample)) (B : Z)
    (L : nat) :
  samples ≠ [] → Forall (λ row, length row = L) samples → (L < 512)%nat →
  ∃ e, mfcc_ops (init_default samples B) = Raise e.
Proof.
  intros Hne Hrows HL.
  assert (HB : (1 ≤ length samples)%nat)
    by (destruct samples; simpl; [done|lia]).
  pose proof (cast_preemphasis_shape _ L samples (conj eq_refl Hrows))
    as Haudio.
  unfold mfcc_ops. cbv zeta.
  change (audio_input (init_default samples B)) with samples.
  rewrite (shape1_shape2 _ _ _ HB Haudio).
  rewrite (window_generator_short _ (length samples) L) by done.
  destruct (decide (L ≤ 320)%nat) as [Hle|Hgt]; [by eexists|].
  destruct (tf_stack1_shape (length samples) L
              [preemphasis (fmap (M:=list) cast <$> samples)])
    as (w & -> & Hlen & Hitems); [done|by constructor|].
  cbn [mbind result_bind]. unfold hamming_shape.
  rewrite decide_False; [by eexists|].
  intros Hall. destruct w as [|it w]; [simpl in Hlen; lia|].
  apply Forall_cons in Hall as [Hit _].
  apply Forall_cons in Hitems as [[Hn Hfr] _].
  destruct it as [|fr it]; [done|].
  apply Forall_cons in Hit as [Hfr512 _].
  apply Forall_cons in Hfr as [HfrL _].
  change (Z.to_nat (window_size (init_default samples B))) with 512%nat
    in Hfr512.
  lia.
Qed.

(** C4, as amended. Under the default parameters (window of 512
    samples, step of 320), a waveform of at most 320 samples yields no
    frame; one of more than 320 and fewer than 512 samples yields
    exactly one frame, and that frame is the whole pre-emphasised
    waveform, shorter than a window. *)
Theorem short_waveform_frames (samples : list (list Sample)) (B : Z)
    (L : nat) :
  samples ≠ [] → Forall (λ row, length row = L) samples → (L < 512)%nat →
  let self := init_default (F:=F) samples B in
  let audio :=
    preemphasis (fmap (M:=list) cast <$> audio_input self) in
  _window_generator self audio (shape1 audio)
  = if decide (L ≤ 320)%nat then [] else [audio].
Proof.
  intros Hne Hrows HL. cbv zeta.
  change (audio_input (init_default samples B)) with samples.
  assert (HB : (1 ≤ length samples)%nat)
    by (destruct samples; simpl; [done|lia]).
  pose proof (cast_preemphasis_shape _ L samples (conj eq_refl Hrows))
    as Haudio.
  rewrite (shape1_shape2 _ _ _ HB Haudio).
  by apply (window_generator_short _ (length samples) L).
Qed.

(** C10. Calling [window_ops] while [mfcc] is still [None] raises
    [AttributeError]; no feature tensor is computed. *)
Theorem window_ops_before_mfcc_ops (self : CarliniWagnerTransforms Sample F) :
  mfcc self = None →
  window_ops self
  = Raise (AttributeError "You haven't created an mfcc value yet!").
Proof. intros Hm. unfold window_ops. by rewrite Hm. Qed.

End FeatureFacts.

(** ** The session bracket and the decoders *)

Section ModelFacts.
Context {Frame Score Feed RnnState : Type}.
Context `{backend : Backend Frame Score Feed RnnState}.

Lemma tf_run_unfold {A} (t : graph_tensor Feed RnnState A)
    (feed : option Feed) (s : session RnnState) :
  tf_run t feed s =
  match t feed zero_state with
  | (Ok outs, _) =>
      (Ok outs, mkSession zero_state (log s ++ [EvReset; EvRun; EvReset]))
  | (Raise e, k) => (Raise e, mkSession k (log s ++ [EvReset; EvRun]))
  end.
Proof.
  unfold tf_run, reset_state, sess_run, mbind, M_bind, mret, M_ret.
  cbn [rnn log]. destruct (t feed zero_state) as [[outs|e] k];
    cbn [rnn log]; by rewrite <- ?app_assoc.
Qed.

Lemma oblivious_ret {A} (a : A) : oblivious (RnnState:=RnnState) (mret a).
Proof. done. Qed.

Lemma oblivious_raise {A} (e : exn) :
  oblivious (RnnState:=RnnState) (raise (A:=A) e).
Proof. done. Qed.

Lemma oblivious_lift {A} (r : result A) :
  oblivious (RnnState:=RnnState) (lift r).
Proof. done. Qed.

Lemma oblivious_print (msg : string) :
  oblivious (RnnState:=RnnState) (print msg).
Proof. done. Qed.

Lemma oblivious_bind {A B} (m : M RnnState A) (f : A → M RnnState B) :
  oblivious m → (∀ a, oblivious (f a)) → oblivious (m ≫= f).
Proof.
  intros Hm Hf s1 s2. unfold mbind, M_bind.
  specialize (Hm s1 s2).
  destruct (m s1) as [[a1|e1] s1'], (m s2) as [[a2|e2] s2'];
    simpl in Hm; try done.
  - injection Hm as ->. apply Hf.
  - injection Hm as ->. done.
Qed.

Lemma oblivious_tf_run {A} (t : graph_tensor Feed RnnState A)
    (feed : option Feed) : oblivious (tf_run t feed).
Proof.
  intros s1 s2. rewrite !tf_run_unfold.
  by destruct (t feed zero_state) as [[outs|e] k].
Qed.

Ltac oblivious_step :=
  first [ apply oblivious_ret | apply oblivious_raise | apply oblivious_lift
        | apply oblivious_print | apply oblivious_tf_run
        | apply oblivious_bind; [|intros ?] ].

Lemma oblivious_logits_or_run
    (t : graph_tensor Feed RnnState (list (list Frame)))
    (feed : option Feed) (logits : option (list (list Frame))) :
  oblivious (logits_or_run t feed logits).
Proof.
  destruct logits as [lg|]; [apply oblivious_ret|].
  unfold logits_or_run, get_logits.
  destruct feed; repeat oblivious_step.
Qed.

Lemma oblivious_inference (self : Model Frame Feed RnnState) (batch : Batch)
    (feed : option Feed) (logits : option (list (list Frame)))
    (decoder : option string) (top_five : bool) :
  oblivious (inference self batch feed logits decoder top_five).
Proof.
  unfold inference, tf_beam_decode, tf_greedy_decode.
  repeat (case_decide || case_match);
    repeat first [ apply oblivious_logits_or_run | oblivious_step ].
Qed.

Lemma constant_over_range {A} (n : nat) (l : A) :
  (λ _, l) <$> py_range 0 (Z.of_nat n) 1 = replicate n l.
Proof.
  rewrite py_range_unit, <- list_fmap_compose.
  induction n as [|n IH] using nat_ind; [done|].
  by rewrite seq_S, fmap_app, IH, replicate_S_end.
Qed.

(** [ds_decode_batch] gives every item the first sequence length. *)
Lemma ds_decode_batch_lengths (self : Model Frame Feed RnnState)
    (logits : list (list Frame)) (l : Z) (rest : list Z) :
  ds_decode_batch self (Some logits) (l :: rest)
  = ctc_beam_search_decoder_batch logits (replicate (length logits) l)
      (beam_width self) (cpu_count `div` 2).
Proof.
  unfold ds_decode_batch, py_index. cbn [lookup list_lookup mbind result_bind].
  by rewrite constant_over_range.
Qed.

Lemma for_each_untruncated (self : Model Frame Feed RnnState)
    (logits : list (list Frame)) (T : nat) :
  T ≠ 1%nat → Forall (λ item, length item = T) logits →
  for_each (λ pn, ctc_beam_search_decoder
                    (Arr2 (take (Z.to_nat pn.2) pn.1)) (beam_width self))
    (zip logits (replicate (length logits) (Z.of_nat T)))
  = for_each (ds_decode self) logits.
Proof.
  intros HT Hall. induction Hall as [|item logits Hitem _ IH]; [done|].
  cbn [length replicate zip zip_with for_each fst snd].
  rewrite IH. unfold ds_decode.
  rewrite Nat2Z.id, take_ge by lia.
  replace (np_squeeze item) with (Arr2 item); [done|].
  destruct item as [|f [|g item]]; simpl in *; [done|lia|done].
Qed.

(** The [ds] branch on given logits: every item is decoded, and the
    result is read off [decoding_probs] with the item index first. *)
Lemma ds_branch_unfold (self : Model Frame Feed RnnState) (batch : Batch)
    (feed : option Feed) (items : list (list Frame)) (top_five : bool)
    (s : session RnnState) :
  inference self batch feed (Some items) (Some "ds") top_five s
  = (decoding_probs ← for_each (ds_decode self) items;
     if top_five then
       probs ← for_each (λ i, hyp_at decoding_probs i 0) [0; 1; 2; 3; 4]%nat;
       decodings ← for_each (λ i, hyp_at decoding_probs i 1)
                     [0; 1; 2; 3; 4]%nat;
       Ok (OutTuples decodings probs)
     else
       best ← hyp_at decoding_probs 0 0;
       Ok (OutBest best.2 best.1), s).
Proof.
  unfold inference. cbn [truthy String.eqb negb].
  rewrite decide_False by done.
  rewrite bool_decide_eq_true_2 by done. cbn [orb].
  unfold logits_or_run, lift, iterate, mbind at 1 2 3, M_bind, mret, M_ret.
  destruct (for_each (ds_decode self) items) as [dp|e]; [|done].
  cbn [mbind result_bind]. destruct top_five.
  - change (Z.to_nat <$> py_range 0 5 1) with [0; 1; 2; 3; 4]%nat.
    unfold mbind at 1 2, M_bind.
    destruct (for_each (λ i, hyp_at dp i 0) [0; 1; 2; 3; 4]%nat); [|done].
    cbn [mbind result_bind].
    by destruct (for_each (λ i, hyp_at dp i 1) [0; 1; 2; 3; 4]%nat).
  - unfold mbind at 1 2, M_bind.
    by destruct (hyp_at dp 0 0) as [[p t]|e].
Qed.

(** C8, as amended. [tf_run] evaluates its tensor on the zero recurrent
    state whatever state the session was left in. When the run returns,
    the log has gained a reset, the run and a second reset, and the
    state is zero; when the run raises, the exception leaves [tf_run]
    at once: no reset follows the run, and the state is the one the run
    left. Every run of [inference] goes through [tf_run], so the
    outcome of an [inference] call does not depend on the session state
    an earlier call left behind. *)
Theorem tf_run_resets_around_every_run :
  (∀ (A : Type) (t : graph_tensor Feed RnnState A) (feed : option Feed)
     (s : session RnnState),
      match t feed zero_state with
      | (Ok outs, _) =>
          tf_run t feed s
          = (Ok outs,
             mkSession zero_state (log s ++ [EvReset; EvRun; EvReset]))
      | (Raise e, k) =>
          tf_run t feed s = (Raise e, mkSession k (log s ++ [EvReset; EvRun]))
      end)
  ∧ (∀ (self : Model Frame Feed RnnState) batch feed logits decoder top_five
       (s1 s2 : session RnnState),
        (inference self batch feed logits decoder top_five s1).1
        = (inference self batch feed logits decoder top_five s2).1).
Proof.
  split.
  - intros A t feed s. rewrite tf_run_unfold.
    by destruct (t feed zero_state) as [[outs|e] k].
  - intros. apply oblivious_inference.
Qed.

(** C9, on the code. With [logits=None] and [feed=None], [get_logits]
    prints its message and returns [None]; the [ds] branch then iterates
    over [None] and the call ends in an uncaught [TypeError], the
    [batch] branch in an [AttributeError]. *)
Theorem inference_without_feed_or_logits
    (self : Model Frame Feed RnnState) (batch : Batch) (top_five : bool)
    (s : session RnnState) :
  inference self batch None None (Some "ds") top_five s
  = (Raise (TypeError "'NoneType' object is not iterable"),
     mkSession (rnn s)
       (log s ++ [EvPrint
          "You're trying to `get_logits` without providing a feed: "]))
  ∧ ∀ l rest,
      inference self (mkBatch (l :: rest) (size batch)) None None
        (Some "batch") top_five s
      = (Raise (AttributeError "'NoneType' object has no attribute 'shape'"),
         mkSession (rnn s)
           (log s ++ [EvPrint
              "You're trying to `get_logits` without providing a feed: "])).
Proof. split; [|intros l rest]; by destruct top_five. Qed.

(** C7, as amended. Under the batching rule of the decoder library and
    with at least two CPUs, for a batch whose items all have [T] frames
    ([T] other than one) and whose sequence lengths all equal [T], the
    batched strategy returns for every item what the non-batched
    strategy returns on that item. *)
Theorem batch_equals_single_when_untruncated
    (self : Model Frame Feed RnnState) (logits : list (list Frame))
    (lengths : list Z) (T : nat) :
  batch_decoder_law backend →
  2 ≤ cpu_count → T ≠ 1%nat →
  Forall (λ item, length item = T) logits →
  lengths ≠ [] → Forall (λ n, n = Z.of_nat T) lengths →
  ds_decode_batch self (Some logits) lengths
  = for_each (ds_decode self) logits.
Proof.
  intros Hlaw Hcpu HT Hitems Hne Hlens.
  destruct lengths as [|l rest]; [done|].
  apply Forall_cons in Hlens as [-> _].
  rewrite ds_decode_batch_lengths, Hlaw.
  - by apply for_each_untruncated.
  - apply Z.div_str_pos. lia.
  - clear -Hitems. induction Hitems as [|item logits Hitem _ IH].
    + constructor.
    + cbn [length replicate]. constructor; [lia|done].
Qed.

End ModelFacts.

(** ** The concrete instance *)

Lemma toy_batch_law : batch_decoder_law Toy.backend.
Proof.
  intros probs lens bw np Hnp Hlens.
  cbn [ctc_beam_search_decoder_batch ctc_beam_search_decoder Toy.backend].
  unfold Toy.decode_batch.
  rewrite bool_decide_eq_true_2; [done|].
  split; [done|]. symmetry. by eapply Forall2_length.
Qed.

(** C1, on the code. [ds_decode_batch] hands the decoder the first
    sequence length for every item. On two items of two frames with
    lengths [2; 1], item 1 is decoded on both of its frames: its second
    frame, beyond its own length 1, shows in the result and changes it. *)
Theorem batch_decodes_every_item_at_first_length :
  (∀ (Frame Score Feed RnnState : Type)
     (backend : Backend Frame Score Feed RnnState)
     (self : Model Frame Feed RnnState)
     (logits : list (list Frame)) (l : Z) (rest : list Z),
      ds_decode_batch self (Some logits) (l :: rest)
      = ctc_beam_search_decoder_batch logits (replicate (length logits) l)
          (beam_width self) (cpu_count `div` 2))
  ∧ inference Toy.model (mkBatch [2; 1] 2) None
      (Some [[1; 2]; [2; 1]]) (Some "batch") false Toy.fresh
    = (Ok (OutLists ["ab"; "ba"] [-2; -2]), Toy.fresh)
  ∧ inference Toy.model (mkBatch [2; 1] 2) None
      (Some [[1; 2]; [2; 3]]) (Some "batch") false Toy.fresh
    = (Ok (OutLists ["ab"; "bc"] [-2; -2]), Toy.fresh).
Proof.
  split; [|split; reflexivity].
  intros. apply ds_decode_batch_lengths.
Qed.

(** C2, on the code. The [ds] branch decodes every item and then indexes
    the list of per-item results by item first: without [top_five] it
    returns the best hypothesis of item 0 only; with [top_five] the
    indices 0..4 range over the items, not over the hypotheses of an
    item. So a batch of two raises [IndexError], and a batch of five
    returns the best tuple of each item as [probs] and the second-best
    tuple of each item as [decodings]. *)
Theorem ds_branch_returns_item_zero :
  (∀ (Frame Score Feed RnnState : Type)
     (backend : Backend Frame Score Feed RnnState)
     (self : Model Frame Feed RnnState) batch feed
     (items : list (list Frame)) (top_five : bool) (s : session RnnState),
      inference self batch feed (Some items) (Some "ds") top_five s
      = (decoding_probs ← for_each (ds_decode self) items;
         if top_five then
           probs ← for_each (λ i, hyp_at decoding_probs i 0)
                     [0; 1; 2; 3; 4]%nat;
           decodings ← for_each (λ i, hyp_at decoding_probs i 1)
                         [0; 1; 2; 3; 4]%nat;
           Ok (OutTuples decodings probs)
         else
           best ← hyp_at decoding_probs 0 0;
           Ok (OutBest best.2 best.1), s))
  ∧ inference Toy.model (mkBatch [2; 2] 2) None
      (Some [[1; 2]; [2; 1]]) (Some "ds") false Toy.fresh
    = (Ok (OutBest "ab" (-2)), Toy.fresh)
  ∧ inference Toy.model (mkBatch [2; 2] 2) None
      (Some [[1; 2]; [2; 1]]) (Some "ds") true Toy.fresh
    = (Raise (IndexError "list index out of range"), Toy.fresh)
  ∧ inference Toy.model (mkBatch [2; 2; 2; 2; 2] 5) None
      (Some [[1; 2]; [2; 1]; [3; 3]; [4; 4]; [5; 5]]) (Some "ds") true
      Toy.fresh
    = (Ok (OutTuples
             [(-3, "ab'"); (-3, "ba'"); (-3, "cc'"); (-3, "dd'"); (-3, "ee'")]
             [(-2, "ab"); (-2, "ba"); (-2, "cc"); (-2, "dd"); (-2, "ee")]),
       Toy.fresh).
Proof.
  split; [|repeat split].
  intros. apply ds_branch_unfold.
Qed.

(** C3, on the code. The [greedy] branch never reads [top_five]: the call
    with [top_five=True] is the call with [top_five=False], and returns
    one hypothesis per item instead of raising. *)
Theorem greedy_ignores_top_five :
  (∀ (Frame Score Feed RnnState : Type)
     (backend : Backend Frame Score Feed RnnState)
     (self : Model Frame Feed RnnState) batch feed logits
     (s : session RnnState),
      inference self batch feed logits (Some "greedy") true s
      = inference self batch feed logits (Some "greedy") false s)
  ∧ inference Toy.model (mkBatch [2; 1] 2) None
      (Some [[1; 2]; [2; 1]]) (Some "greedy") true Toy.fresh
    = (Ok (OutGreedy (["ab"; "b"], [-2; -1])),
       mkSession 0 [EvReset; EvRun; EvReset; EvReset; EvRun; EvReset]).
Proof. split; reflexivity. Qed.

(** C7 fails as stated: with sequence lengths [1; 1] on items of two
    frames, the batched strategy decodes one frame per item and the
    non-batched strategy both, under a decoder that keeps the batching
    rule. *)
Lemma batch_differs_from_single :
  batch_decoder_law Toy.backend
  ∧ ds_decode_batch Toy.model (Some [[1; 2]; [2; 1]]) [1; 1]
    ≠ for_each (ds_decode Toy.model) [[1; 2]; [2; 1]].
Proof. split; [apply toy_batch_law|]. vm_compute. discriminate. Qed.

(** C7, as amended, at two items of two frames with lengths [2; 2]. *)
Lemma batch_equals_single_witness :
  ds_decode_batch Toy.model (Some [[1; 2]; [2; 1]]) [2; 2]
  = for_each (ds_decode Toy.model) [[1; 2]; [2; 1]].
Proof.
  apply (batch_equals_single_when_untruncated Toy.model
           [[1; 2]; [2; 1]] [2; 2] 2).
  - apply toy_batch_law.
  - cbn. lia.
  - lia.
  - repeat constructor.
  - discriminate.
  - repeat constructor.
Defined.

(** C4 fails as stated: a waveform of 400 samples is shorter than a
    window of 512, framing yields one frame of 400 samples, and
    [mfcc_ops] raises on it. *)
Lemma short_waveform_has_a_frame :
  let self := init_default (F:=Q) [Toy.wave 400] 1 in
  let audio :=
    preemphasis (fmap (M:=list) cast <$> audio_input self) in
  shape1 audio = 400 ∧ window_size self = 512
  ∧ fmap (M:=list) length <$> _window_generator self audio (shape1 audio)
    = [[400%nat]]
  ∧ mfcc_ops self = Raise (ValueError "Dimensions must be equal").
Proof. vm_compute. repeat split. Qed.

(** C4, as amended, at a waveform of 400 samples. *)
Lemma short_waveform_frames_witness :
  let self := init_default (F:=Q) [Toy.wave 400] 1 in
  let audio :=
    preemphasis (fmap (M:=list) cast <$> audio_input self) in
  _window_generator self audio (shape1 audio) = [audio].
Proof.
  apply (short_waveform_frames [Toy.wave 400] 1 400).
  - discriminate.
  - repeat constructor.
  - lia.
Defined.


(** C10 at a freshly constructed instance. *)
Lemma window_ops_before_mfcc_ops_witness :
  window_ops (init_default (F:=Q) [[1; 2; 3]] 1)
  = Raise (AttributeError "You haven't created an mfcc value yet!").
Proof.
  apply (window_ops_before_mfcc_ops (numerics:=Toy.numerics)
           (init_default (F:=Q) [[1; 2; 3]] 1)).
  reflexivity.
Defined.

(** * Further properties of the code *)

(** ** Values of the tensor operations *)

(** Stacking the slices a generator cuts from every row of one tensor
    gives, per row, the list of its slices. *)
Lemma tf_stack1_slices {A I} (f : I → list A → list A) (idx : list I)
    (audio : list (list A)) :
  idx ≠ [] →
  (∀ i j, i ∈ idx → j ∈ idx →
     Forall (λ row, length (f i row) = length (f j row)) audio) →
  tf_stack1 ((λ i, f i <$> audio) <$> idx)
  = Ok ((λ row, (λ i, f i row) <$> idx) <$> audio).
Proof.
  intros Hne Hsame. destruct idx as [|i0 idx']; [done|].
  set (idx := i0 :: idx') in *.
  assert (Hv : (λ i, f i <$> audio) <$> idx
               = (f i0 <$> audio) :: ((λ i, f i <$> audio) <$> idx')) by done.
  unfold tf_stack1. rewrite Hv. cbv beta iota. rewrite <- Hv.
  rewrite decide_True.
  - f_equal. rewrite length_fmap. apply list_eq. intros b.
    rewrite !list_lookup_fmap.
    destruct (audio !! b) as [row|] eqn:Hb.
    + assert (Hin : (λ v, default [] (v !! b))
                      <$> ((λ i, f i <$> audio) <$> idx)
                    = (λ i, f i row) <$> idx).
      { rewrite <- list_fmap_compose. apply list_fmap_ext. intros _ i _.
        unfold compose. by rewrite list_lookup_fmap, Hb. }
      rewrite lookup_seq_lt by (by eapply lookup_lt_Some).
      apply (f_equal Some). exact Hin.
    + rewrite lookup_seq_ge by (by apply lookup_ge_None). done.
  - apply Forall_fmap, Forall_forall. intros i Hi. unfold compose.
    rewrite <- !list_fmap_compose. apply Forall_fmap_ext_1.
    apply (Hsame i i0); [done|by left].
Qed.

Lemma join_drop_rows {A} (c i : nat) (rows : list (list A)) :
  Forall (λ r, length r = c) rows →
  drop (i * c) (mjoin rows) = mjoin (drop i rows).
Proof.
  intros Hrows. revert i.
  induction Hrows as [|r rows Hr _ IH]; intros i.
  - change (mjoin []) with (@nil A). by rewrite !drop_nil.
  - destruct i as [|i]; [done|].
    cbn [mjoin list_join drop]. rewrite drop_app_ge by lia.
    replace (S i * c - length r)%nat with (i * c)%nat by lia. apply IH.
Qed.

Lemma join_take_rows {A} (c k : nat) (rows : list (list A)) :
  Forall (λ r, length r = c) rows →
  take (k * c) (mjoin rows) = mjoin (take k rows).
Proof.
  intros Hrows. revert k.
  induction Hrows as [|r rows Hr _ IH]; intros k.
  - change (mjoin []) with (@nil A). by rewrite !take_nil.
  - destruct k as [|k]; [done|].
    cbn [mjoin list_join take]. rewrite take_app_ge by lia.
    replace (S k * c - length r)%nat with (k * c)%nat by lia.
    by rewrite IH.
Qed.

(** Cutting a join of rows of [k] entries into rows of [k] entries gives
    the rows back. *)
Lemma chunks_join {A} (k : nat) (rows : list (list A)) :
  k ≠ 0%nat → Forall (λ r, length r = k) rows → chunks k (mjoin rows) = rows.
Proof.
  intros Hk Hrows. unfold chunks.
  rewrite length_join, (sum_list_fmap_same k) by done.
  rewrite Nat.div_mul by done.
  induction Hrows as [|r rows Hr _ IH]; [done|].
  cbn [length replicate reshape mjoin list_join].
  rewrite take_app_length' by done. rewrite drop_app_length' by done.
  f_equal. exact IH.
Qed.

Section FeatureValues.
Context {Sample F : Type} `{numerics : Numerics Sample F}.

Lemma py_slice_take_drop {A} (k : nat) (step size : Z) (l : list A) :
  0 ≤ step → 0 ≤ size →
  py_slice (0 + Z.of_nat k * step) (0 + Z.of_nat k * step + size) l
  = take (Z.to_nat size) (drop (k * Z.to_nat step) l).
Proof.
  intros Hstep Hsize. unfold py_slice. f_equal; [nia|f_equal; nia].
Qed.

(** [mfcc_ops] on [B] waveforms whose slices are all whole windows: it
    returns when [batch_size] is [B], with, per row, the per-frame map
    of the windows cut every [window_step] samples from the
    pre-emphasised row; with any other [batch_size] the product with
    the filter bank is rejected. *)
Lemma mfcc_ops_cases (self : CarliniWagnerTransforms Sample F)
    (B L : nat) (q : Z) :
  0 < window_step self → 0 ≤ window_size self → 0 ≤ q →
  q * window_step self < Z.of_nat L - window_step self
    ≤ (q + 1) * window_step self →
  q * window_step self + window_size self ≤ Z.of_nat L →
  (1 ≤ B)%nat → shape2 B L (audio_input self) →
  mfcc_ops self
  = if decide (batch_size self ≤ 0)
    then Raise (ValueError "Shape must be rank 2 but is rank 3")
    else if decide (batch_size self = Z.of_nat B)
    then Ok (set_mfcc self
               ((λ row,
                   (λ k : nat,
                      frame_mfcc
                        (take (Z.to_nat (window_size self))
                           (drop (k * Z.to_nat (window_step self))
                              (preemphasis_row (cast <$> row)))))
                     <$> seq 0 (Z.to_nat (q + 1)))
                  <$> audio_input self))
    else Raise (ValueError "Dimensions must be equal").
Proof.
  intros Hstep Hsize Hq Hband Hfit HB Hin.
  pose proof (cast_preemphasis_shape B L _ Hin) as Haudio.
  pose proof (range_len_between _ _ _ Hstep Hq Hband) as Hn.
  unfold mfcc_ops. cbv zeta.
  rewrite (shape1_shape2 _ _ _ HB Haudio).
  unfold _window_generator.
  rewrite (tf_stack1_slices (λ i, py_slice i (i + window_size self))).
  - cbn [mbind result_bind]. unfold hamming_shape. rewrite decide_True.
    + cbn [mbind result_bind]. unfold matmul_shape.
      rewrite length_fmap, (proj1 Haudio).
      destruct (decide (batch_size self ≤ 0)); [done|].
      destruct (decide (batch_size self = Z.of_nat B)); [|done].
      cbn [mbind result_bind]. do 2 f_equal.
      unfold preemphasis, py_range. rewrite Hn.
      rewrite <- !list_fmap_compose. apply list_fmap_ext. intros _ row _.
      unfold compose. rewrite <- !list_fmap_compose.
      apply list_fmap_ext. intros _ k _. unfold compose.
      by rewrite py_slice_take_drop by lia.
    + apply Forall_fmap. destruct Haudio as [_ Hrows].
      eapply Forall_impl; [exact Hrows|]. intros row Hrow. cbv beta in Hrow.
      unfold compose. apply Forall_fmap, Forall_lookup. intros k i Hk.
      apply py_range_lookup in Hk as [-> Hk]. rewrite Hn in Hk.
      unfold compose.
      assert (Z.of_nat k * window_step self ≤ q * window_step self) by nia.
      apply length_py_slice_inside; nia.
  - intros Hnil. apply (f_equal length) in Hnil.
    rewrite length_py_range, Hn in Hnil. simpl in Hnil. lia.
  - intros i i' Hi Hi'. destruct Haudio as [_ Hrows].
    eapply Forall_impl; [exact Hrows|]. intros row Hrow. cbv beta in Hrow.
    apply list_elem_of_lookup in Hi as [k Hk], Hi' as [k' Hk'].
    apply py_range_lookup in Hk as [-> Hk], Hk' as [-> Hk'].
    rewrite Hn in Hk, Hk'.
    assert (Z.of_nat k * window_step self ≤ q * window_step self) by nia.
    assert (Z.of_nat k' * window_step self ≤ q * window_step self) by nia.
    rewrite !length_py_slice_inside by nia. done.
Qed.

(** A waveform whose last slice runs past its end: the slices do not
    all have the shape of the first, and stacking them fails. *)
Lemma mfcc_ops_ragged_raises (self : CarliniWagnerTransforms Sample F)
    (B L : nat) (q : Z) :
  0 < window_step self → 0 ≤ q →
  q * window_step self < Z.of_nat L - window_step self
    ≤ (q + 1) * window_step self →
  window_size self ≤ Z.of_nat L < q * window_step self + window_size self →
  (1 ≤ B)%nat → shape2 B L (audio_input self) →
  mfcc_ops self = Raise (ValueError "Shapes of all inputs must match").
Proof.
  intros Hstep Hq Hband Hcut HB Hin.
  pose proof (cast_preemphasis_shape B L _ Hin) as Haudio.
  pose proof (range_len_between _ _ _ Hstep Hq Hband) as Hn.
  unfold mfcc_ops. cbv zeta.
  rewrite (shape1_shape2 _ _ _ HB Haudio).
  set (audio := preemphasis (fmap (M:=list) cast <$> audio_input self)) in *.
  unfold _window_generator, py_range. rewrite Hn.
  replace (Z.to_nat (q + 1)) with (S (Z.to_nat q)) by lia.
  cbn [seq fmap list_fmap]. unfold tf_stack1.
  rewrite decide_False; [done|].
  intros Hall. apply Forall_cons in Hall as [_ Hall].
  assert (Hlast : list_fmap _ _ (λ i, py_slice i (i + window_size self) <$> audio)
            (list_fmap _ _ (λ k : nat, 0 + Z.of_nat k * window_step self)
               (seq 1 (Z.to_nat q))) !! (Z.to_nat q - 1)%nat
          = Some (py_slice (q * window_step self)
                    (q * window_step self + window_size self) <$> audio)).
  { change (list_fmap ?A ?B ?f ?l) with (f <$> l).
    rewrite !list_lookup_fmap, lookup_seq_lt by nia.
    cbn [fmap option_fmap option_map]. do 3 f_equal; nia. }
  pose proof (Forall_lookup_1 _ _ _ _ Hall Hlast) as Heq. cbv beta in Heq.
  destruct Haudio as [Hlen Hrows].
  destruct audio as [|row audio']; [simpl in Hlen; lia|].
  apply Forall_cons in Hrows as [Hrow _].
  rewrite !fmap_cons in Heq. injection Heq as Heq _.
  unfold py_slice in Heq. rewrite !length_take, !length_drop in Heq. nia.
Qed.
End FeatureValues.

Section FeatureExtras.
Context {Sample F : Type} `{numerics : Numerics Sample F}.

(** X1. Under the default parameters, with [batch_size] the number of
    waveforms, on a non-empty batch of waveforms of common length [L]
    between [512 + 320 j] and [640 + 320 j], [mfcc_ops] returns, for
    every row, [j + 1] frames: frame [k] is the per-frame map of samples
    [320 k .. 320 k + 511] of the pre-emphasised row. *)
Theorem mfcc_ops_frames (samples : list (list Sample)) (B : Z) (L j : nat) :
  samples ≠ [] → B = Z.of_nat (length samples) →
  Forall (λ row, length row = L) samples →
  (512 + 320 * j ≤ L ≤ 640 + 320 * j)%nat →
  mfcc_ops (init_default samples B)
  = Ok (set_mfcc (init_default samples B)
          ((λ row,
              (λ k : nat,
                 frame_mfcc
                   (take 512 (drop (k * 320)
                                (preemphasis_row (cast <$> row)))))
                <$> seq 0 (S j))
             <$> samples)).
Proof.
  intros Hne HBs Hrows HL.
  assert (HB : (1 ≤ length samples)%nat)
    by (destruct samples; simpl; [done|lia]).
  set (self := init_default samples B).
  assert (Hstep : window_step self = 320) by done.
  assert (Hsize : window_size self = 512) by done.
  assert (Hbatch : batch_size self = B) by done.
  rewrite (mfcc_ops_cases self (length samples) L (Z.of_nat j));
    [|rewrite ?Hstep, ?Hsize; first [lia|done]..].
  rewrite Hbatch, decide_False, decide_True by lia.
  subst self.
  change (Z.to_nat (window_size (init_default samples B))) with 512%nat.
  change (Z.to_nat (window_step (init_default samples B))) with 320%nat.
  change (audio_input (init_default samples B)) with samples.
  by replace (Z.to_nat (Z.of_nat j + 1)) with (S j) by lia.
Qed.

(** When [mfcc_ops] returns under the default parameters, and that it
    raises otherwise. *)
Lemma mfcc_ops_returns_iff (samples : list (list Sample)) (B : Z) (L : nat) :
  samples ≠ [] → Forall (λ row, length row = L) samples →
  ((∃ t, mfcc_ops (init_default samples B) = Ok t)
   ↔ B = Z.of_nat (length samples)
     ∧ ∃ j : nat, (512 + 320 * j ≤ L ≤ 640 + 320 * j)%nat)
  ∧ ((∃ t, mfcc_ops (init_default samples B) = Ok t)
     ∨ ∃ e, mfcc_ops (init_default samples B) = Raise e).
Proof.
  intros Hne Hrows.
  assert (HB : (1 ≤ length samples)%nat)
    by (destruct samples; simpl; [done|lia]).
  split; [|destruct (mfcc_ops (init_default samples B)); eauto].
  set (self := init_default samples B).
  assert (Hstep : window_step self = 320) by done.
  assert (Hsize : window_size self = 512) by done.
  assert (Hbatch : batch_size self = B) by done.
  split.
  - intros [t Ht]. destruct (decide (L < 512)%nat) as [Hshort|Hlong].
    + destruct (mfcc_ops_short_waveform_raises samples B L) as [e He];
        try done. fold self in He. by rewrite He in Ht.
    + set (j := ((L - 512) / 320)%nat).
      assert (320 * j ≤ L - 512 < 320 * j + 320)%nat as Hj.
      { pose proof (Nat.div_mod_eq (L - 512) 320) as Hd.
        pose proof (Nat.mod_upper_bound (L - 512) 320). subst j. lia. }
      destruct (decide (L ≤ 640 + 320 * j)%nat) as [Hin|Hout].
      * rewrite (mfcc_ops_cases self (length samples) L (Z.of_nat j)) in Ht;
          [|rewrite ?Hstep, ?Hsize; first [lia|done]..].
        rewrite Hbatch in Ht.
        destruct (decide (B ≤ 0)); [done|].
        destruct (decide (B = Z.of_nat (length samples))); [|done].
        split; [done|]. exists j. lia.
      * rewrite (mfcc_ops_ragged_raises self (length samples) L
                   (Z.of_nat j + 1)) in Ht;
          [done|rewrite ?Hstep, ?Hsize; first [lia|done]..].
  - intros [HBs [j Hj]].
    rewrite (mfcc_ops_cases self (length samples) L (Z.of_nat j));
      [|rewrite ?Hstep, ?Hsize; first [lia|done]..].
    rewrite Hbatch, decide_False, decide_True by lia. by eexists.
Qed.

(** X2. Under the default parameters, [mfcc_ops] returns on a
    non-empty batch of waveforms of common length [L] exactly when
    [batch_size] is the number of waveforms and [L] lies between
    [512 + 320 j] and [640 + 320 j] for some [j]; with any other
    [batch_size] or length it raises. *)
Theorem mfcc_ops_accepted_lengths (samples : list (list Sample)) (B : Z)
    (L : nat) :
  samples ≠ [] → Forall (λ row, length row = L) samples →
  (∃ t, mfcc_ops (init_default samples B) = Ok t)
  ↔ B = Z.of_nat (length samples)
    ∧ ∃ j : nat, (512 + 320 * j ≤ L ≤ 640 + 320 * j)%nat.
Proof.
  intros Hne Hrows.
  destruct (mfcc_ops_returns_iff samples B L Hne Hrows) as [Hiff _].
  exact Hiff.
Qed.

(** C6, as amended. With [n_context = 9], [n_ceps = 26] and
    [batch_size] the number of waveforms, on [B >= 1] waveforms of a
    common length [L], the feature path (framing, then context
    stacking) produces a feature tensor exactly when [L] lies between
    [512 + 320 j] and [640 + 320 j] for some [j]; the tensor then has
    [j + 1] frames, a context axis of length 19 and a last axis of
    length 26. *)
Theorem context_stacking_on_whole_windows (samples : list (list Sample))
    (B L : nat) :
  (∀ fr, length fr = 512%nat → length (frame_mfcc fr) = 26%nat) →
  (1 ≤ B)%nat → shape2 B L samples →
  ((∃ t, extract_features samples (Z.of_nat B) = Ok t)
   ↔ ∃ j : nat, (512 + 320 * j ≤ L ≤ 640 + 320 * j)%nat)
  ∧ (∀ j : nat, (512 + 320 * j ≤ L ≤ 640 + 320 * j)%nat →
       ∃ t f, extract_features samples (Z.of_nat B) = Ok t
              ∧ features t = Some f ∧ shape4 B (S j) 19 26 f).
Proof.
  intros Hfm HB Hin.
  assert (Hband : ∀ j : nat, (512 + 320 * j ≤ L ≤ 640 + 320 * j)%nat →
            ∃ t f, extract_features samples (Z.of_nat B) = Ok t
                   ∧ features t = Some f ∧ shape4 B (S j) 19 26 f).
  { intros j Hj.
    destruct (extract_features_on_band samples B L (Z.of_nat j))
      as (t & f & Ht & Hf & Hsh); [done|done|done|lia|lia|].
    exists t, f. split; [done|]. split; [done|].
    by replace (Z.to_nat (Z.of_nat j + 1)) with (S j) in Hsh by lia. }
  split; [|exact Hband]. split.
  - intros [t Ht]. unfold extract_features in Ht. cbv zeta in Ht.
    destruct Hin as [Hlen Hrows].
    destruct (mfcc_ops_returns_iff samples (Z.of_nat B) L) as [Hiff _].
    { intros ->. simpl in Hlen. lia. }
    { exact Hrows. }
    destruct (mfcc_ops (init_default samples (Z.of_nat B))) as [t1|e] eqn:Hm;
      [|done].
    apply Hiff. by exists t1.
  - intros [j Hj]. destruct (Hband j Hj) as (t & _ & Ht & _). by exists t.
Qed.

End FeatureExtras.

Lemma join_fmap_join {A} (bs : list (list (list A))) :
  mjoin (mjoin (M:=list) <$> bs) = mjoin (mjoin bs).
Proof.
  induction bs as [|b bs IH]; [done|].
  rewrite fmap_cons.
  change (mjoin (b :: bs)) with (b ++ mjoin bs).
  change (mjoin (mjoin b :: (mjoin (M:=list) <$> bs)))
    with (mjoin b ++ mjoin (mjoin (M:=list) <$> bs)).
  by rewrite join_app, IH.
Qed.

Lemma tf_concat1_pad_value {A} (B p n c : nat) (x : A)
    (m : list (list (list A))) :
  shape3 B n c m →
  let pad := replicate p (replicate c x) in
  tf_concat1 c [replicate B pad; m; replicate B pad]
  = Ok ((λ it, pad ++ it ++ pad) <$> m).
Proof.
  intros Hm pad.
  destruct (tf_concat1_pad B p n c x m Hm) as (t & Ht & _).
  fold pad in Ht. rewrite Ht. f_equal.
  unfold tf_concat1 in Ht. case_decide; [|done]. injection Ht as <-.
  destruct Hm as [Hlen Hitems].
  rewrite length_replicate. apply list_eq. intros b.
  rewrite !list_lookup_fmap.
  destruct (m !! b) as [it|] eqn:Hb.
  - pose proof (lookup_lt_Some _ _ _ Hb).
    rewrite lookup_seq_lt by lia. apply (f_equal Some).
    cbn [fmap list_fmap mjoin list_join]. rewrite Nat.add_0_l.
    rewrite Hb, lookup_replicate_2 by lia. cbn [default].
    by rewrite app_nil_r.
  - apply lookup_ge_None in Hb. by rewrite lookup_seq_ge by lia.
Qed.

Section ContextValues.
Context {Sample F : Type} `{numerics : Numerics Sample F}.

(** The value of [window_ops]: block [i] of an item is the run of
    [tot_contexts] rows that starts at row [i] of its MFCC padded with
    [n_contexts] zero rows on either side. *)
Lemma window_ops_value (self : CarliniWagnerTransforms Sample F)
    (B n : nat) (m : list (list (list F))) :
  0 < n_ceps self → 0 ≤ n_contexts self →
  tot_contexts self = n_contexts self * 2 + 1 →
  batch_size self = Z.of_nat B → (1 ≤ B)%nat → (1 ≤ n)%nat →
  mfcc self = Some m → shape3 B n (Z.to_nat (n_ceps self)) m →
  let pad := replicate (Z.to_nat (n_contexts self))
               (replicate (Z.to_nat (n_ceps self)) fzero) in
  window_ops self
  = Ok (set_features self
          ((λ it, (λ i : nat, take (Z.to_nat (tot_contexts self))
                                (drop i (pad ++ it ++ pad)))
                    <$> seq 0 n) <$> m)).
Proof.
  intros Hc Hp Htot HB HB1 Hn Hm Hshape pad.
  set (c := Z.to_nat (n_ceps self)) in *.
  set (p := Z.to_nat (n_contexts self)) in *.
  set (tot := Z.to_nat (tot_contexts self)).
  assert (Htot' : tot = (p + p + 1)%nat) by (subst tot p; lia).
  unfold window_ops. rewrite Hm, HB, Nat2Z.id.
  fold c p. rewrite (tf_concat1_pad_value B p n c fzero m Hshape).
  fold pad. cbn [mbind result_bind].
  set (padded := λ it : list (list F), pad ++ it ++ pad).
  assert (Hpadded : Forall (λ it, length (padded it) = (n + p + p)%nat
                                  ∧ Forall (λ r, length r = c) (padded it)) m).
  { destruct Hshape as [_ Hitems]. eapply Forall_impl; [exact Hitems|].
    intros it [Hlen Hrows]. unfold padded. split.
    - rewrite !length_app. unfold pad. rewrite length_replicate. lia.
    - rewrite !Forall_app. split_and!; [|done|];
        apply Forall_replicate, length_replicate. }
  set (flat := mjoin (M:=list) <$> (padded <$> m)).
  assert (Hflat : shape2 B ((n + p + p) * c) flat).
  { apply shape3_join. destruct Hshape as [Hlen _].
    split; [by rewrite length_fmap|]. by apply Forall_fmap. }
  unfold _context_generator, dimension_sub.
  rewrite (shape1_shape2 _ _ _ HB1 Hflat).
  rewrite decide_False by nia. rewrite decide_False by nia.
  cbn [mbind result_bind].
  assert (Hrl : range_len 0
            (Z.of_nat ((n + p + p) * c) - tot_contexts self * n_ceps self + 1)
            (n_ceps self) = n).
  { rewrite (range_len_between _ _ (Z.of_nat n - 1)); [lia|lia|lia|nia]. }
  unfold py_range. rewrite Hrl.
  rewrite (tf_stack1_slices
             (λ i, py_slice i (i + tot_contexts self * n_ceps self))).
  - cbn [mbind result_bind].
    assert (Hitem : ∀ it, it ∈ m →
              (λ i, py_slice i (i + tot_contexts self * n_ceps self)
                      (mjoin (padded it)))
                <$> ((λ k : nat, 0 + Z.of_nat k * n_ceps self) <$> seq 0 n)
              = mjoin (M:=list)
                  <$> ((λ i : nat, take tot (drop i (padded it))) <$> seq 0 n)).
    { intros it Hit.
      destruct (proj1 (Forall_forall _ _) Hpadded it Hit) as [Hl Hr].
      rewrite <- !list_fmap_compose. apply list_fmap_ext. intros _ k _.
      unfold compose. rewrite py_slice_take_drop by lia.
      fold c. replace (Z.to_nat (tot_contexts self * n_ceps self))
        with (tot * c)%nat by (subst tot c; nia).
      rewrite (join_drop_rows c) by done.
      rewrite (join_take_rows c); [done|]. by apply Forall_drop. }
    assert (Hblocks : ∀ it, it ∈ m →
              Forall (λ blk, length blk = tot
                             ∧ Forall (λ r : list F, length r = c) blk)
                ((λ i : nat, take tot (drop i (padded it))) <$> seq 0 n)).
    { intros it Hit.
      destruct (proj1 (Forall_forall _ _) Hpadded it Hit) as [Hl Hr].
      apply Forall_fmap, Forall_seq. intros k Hk. unfold compose. split.
      - rewrite length_take, length_drop. lia.
      - by apply Forall_take, Forall_drop. }
    unfold tf_reshape4. fold tot c. rewrite decide_True.
    + cbn [mbind result_bind]. do 2 f_equal.
      unfold flat. rewrite <- !list_fmap_compose.
      apply Forall_fmap_ext_1, Forall_forall. intros it Hit.
      unfold compose. rewrite (Hitem it Hit), join_fmap_join.
      pose proof (Hblocks it Hit) as Hb.
      rewrite (chunks_join c).
      * apply chunks_join; [lia|].
        eapply Forall_impl; [exact Hb|]. by intros blk [? _].
      * subst c. lia.
      * apply Forall_join. eapply Forall_impl; [exact Hb|].
        by intros blk [_ ?].
    + unfold flat. rewrite <- !list_fmap_compose.
      apply Forall_fmap, Forall_forall. intros it Hit. unfold compose.
      rewrite (Hitem it Hit), join_fmap_join.
      pose proof (Hblocks it Hit) as Hb.
      split; [subst c; nia|].
      rewrite length_join, (sum_list_fmap_same c).
      * rewrite length_join, (sum_list_fmap_same tot).
        -- rewrite length_fmap, length_seq.
           replace (n * tot * c)%nat with (n * (tot * c))%nat by lia.
           apply Nat.Div0.mod_mul.
        -- eapply Forall_impl; [exact Hb|]. by intros blk [? _].
      * apply Forall_join. eapply Forall_impl; [exact Hb|].
        by intros blk [_ ?].
  - intros Hnil. apply (f_equal length) in Hnil.
    rewrite length_fmap, length_seq in Hnil. simpl in Hnil. lia.
  - intros i i' Hi Hi'. destruct Hflat as [_ Hrows].
    eapply Forall_impl; [exact Hrows|]. intros row Hrow. cbv beta in Hrow.
    apply list_elem_of_lookup in Hi as [k Hk], Hi' as [k' Hk'].
    apply list_lookup_fmap_Some in Hk as (k0 & -> & Hk0).
    apply list_lookup_fmap_Some in Hk' as (k0' & -> & Hk0').
    apply lookup_seq in Hk0 as [-> Hk0], Hk0' as [-> Hk0'].
    assert (Z.of_nat k * n_ceps self ≤ (Z.of_nat n - 1) * n_ceps self) by nia.
    assert (Z.of_nat k' * n_ceps self ≤ (Z.of_nat n - 1) * n_ceps self) by nia.
    rewrite !length_py_slice_inside by nia. done.
Qed.

End ContextValues.

Section ContextExtras.
Context {Sample F : Type} `{numerics : Numerics Sample F}.

(** X3. On an MFCC tensor of [n >= 1] frames, [window_ops] returns
    features in which row [k] of block [i] of an item is frame
    [i + k - n_contexts] of that item's MFCC, and an all-zero row where
    that index falls before the first or after the last frame. *)
Theorem window_ops_blocks (self : CarliniWagnerTransforms Sample F)
    (B n : nat) (m : list (list (list F))) :
  0 < n_ceps self → 0 ≤ n_contexts self →
  tot_contexts self = n_contexts self * 2 + 1 →
  batch_size self = Z.of_nat B → (1 ≤ B)%nat → (1 ≤ n)%nat →
  mfcc self = Some m → shape3 B n (Z.to_nat (n_ceps self)) m →
  let p := Z.to_nat (n_contexts self) in
  let zero_row : list F := replicate (Z.to_nat (n_ceps self)) fzero in
  ∃ f, window_ops self = Ok (set_features self f)
       ∧ ∀ b it i k,
           m !! b = Some it → (i < n)%nat →
           (k < Z.to_nat (tot_contexts self))%nat →
           (blocks ← f !! b; block ← blocks !! i; block !! k)
           = Some (if decide (p ≤ i + k)%nat
                   then default zero_row (it !! (i + k - p)%nat)
                   else zero_row).
Proof.
  intros Hc Hp Htot HB HB1 Hn Hm Hshape p zero_row.
  eexists. split; [by apply (window_ops_value self B n m)|].
  intros b it i k Hb Hi Hk. fold p zero_row.
  rewrite list_lookup_fmap, Hb. cbn [fmap option_fmap option_map mbind option_bind].
  rewrite list_lookup_fmap, lookup_seq_lt by done.
  cbn [fmap option_fmap option_map mbind option_bind].
  rewrite lookup_take_lt, lookup_drop by done. rewrite Nat.add_0_l.
  destruct Hshape as [_ Hitems].
  destruct (Forall_lookup_1 _ _ _ _ Hitems Hb) as [Hlen _].
  assert (Hpad : length (replicate p zero_row) = p) by apply length_replicate.
  destruct (decide (p ≤ i + k)%nat) as [Hge|Hlt].
  - rewrite lookup_app_r by lia. rewrite Hpad.
    destruct (decide (i + k - p < n)%nat) as [Hin|Hout].
    + rewrite lookup_app_l by lia.
      destruct (lookup_lt_is_Some_2 it (i + k - p)) as [r Hr]; [lia|].
      by rewrite Hr.
    + rewrite lookup_app_r by lia.
      rewrite (lookup_ge_None_2 it) by lia.
      rewrite lookup_replicate_2; [done|]. lia.
  - rewrite lookup_app_l by lia. by rewrite lookup_replicate_2 by lia.
Qed.

End ContextExtras.

(** ** Comprehensions *)

Lemma for_each_Forall2 {A B} (f : A → result B) (l : list A) (ys : list B) :
  for_each f l = Ok ys ↔ Forall2 (λ x y, f x = Ok y) l ys.
Proof.
  revert ys. induction l as [|x l IH]; intros ys; cbn [for_each].
  - split.
    + intros [= <-]. constructor.
    + by intros ->%Forall2_nil_inv_l.
  - split.
    + intros Hok. destruct (f x) as [y|e] eqn:Hx; [|done].
      cbn [mbind result_bind] in Hok.
      destruct (for_each f l) as [ys'|e] eqn:Hl; [|done].
      cbn [mbind result_bind] in Hok. injection Hok as <-.
      constructor; [done|]. by apply IH.
    + intros (y & ys' & Hx & Hl & ->)%Forall2_cons_inv_l.
      rewrite Hx. cbn [mbind result_bind].
      apply IH in Hl. rewrite Hl. done.
Qed.

Lemma for_each_total {A B} (f : A → result B) (l : list A) :
  Forall (λ x, ∃ y, f x = Ok y) l → ∃ ys, for_each f l = Ok ys.
Proof.
  induction 1 as [|x l [y Hx] _ [ys IH]]; [by eexists|].
  cbn [for_each]. rewrite Hx, IH. by eexists.
Qed.

Lemma for_each_raises {A B} (f : A → result B) (l : list A) (e : exn) :
  for_each f l = Raise e → ∃ x, x ∈ l ∧ f x = Raise e.
Proof.
  induction l as [|x l IH]; cbn [for_each]; [done|].
  destruct (f x) as [y|e'] eqn:Hx.
  - cbn [mbind result_bind]. destruct (for_each f l) as [ys|e'] eqn:Hl; [done|].
    cbn [mbind result_bind]. intros [= <-].
    destruct (IH eq_refl) as (x' & Hin & Hx'). exists x'. split; [by right|done].
  - cbn [mbind result_bind]. intros [= <-]. exists x. split; [by left|done].
Qed.

(** ** Labels to text *)

Lemma string_get_Some (s : string) (k : nat) :
  (k < String.length s)%nat → ∃ c, String.get k s = Some c.
Proof.
  revert k. induction s as [|a s IH]; intros k Hk; simpl in *; [lia|].
  destruct k as [|k]; [by eexists|]. apply IH. lia.
Qed.

Lemma py_str_index_ok (s : string) (i : Z) :
  - Z.of_nat (String.length s) ≤ i < Z.of_nat (String.length s) →
  ∃ c, py_str_index s i = Ok c.
Proof.
  intros Hi. unfold py_str_index. cbv zeta.
  destruct (decide (i < 0)) as [Hneg|Hpos].
  - rewrite (bool_decide_eq_true_2 (i < 0)) by done.
    rewrite bool_decide_eq_true_2 by lia.
    destruct (string_get_Some s (Z.to_nat (i + Z.of_nat (String.length s))))
      as [c ->]; [lia|]. by eexists.
  - rewrite (bool_decide_eq_false_2 (i < 0)) by done.
    rewrite bool_decide_eq_true_2 by lia.
    destruct (string_get_Some s (Z.to_nat i)) as [c ->]; [lia|]. by eexists.
Qed.

Lemma py_str_index_out (s : string) (i : Z) :
  ¬ (- Z.of_nat (String.length s) ≤ i < Z.of_nat (String.length s)) →
  py_str_index s i = Raise (IndexError "string index out of range").
Proof.
  intros Hi. unfold py_str_index. cbv zeta.
  destruct (decide (i < 0)) as [Hneg|Hpos].
  - rewrite (bool_decide_eq_true_2 (i < 0)) by done.
    by rewrite bool_decide_eq_false_2 by lia.
  - rewrite (bool_decide_eq_false_2 (i < 0)) by done.
    by rewrite bool_decide_eq_false_2 by lia.
Qed.

Lemma length_string_of_list_ascii (cs : list Ascii.ascii) :
  String.length (String.string_of_list_ascii cs) = length cs.
Proof. induction cs as [|c cs IH]; simpl; [done|by rewrite IH]. Qed.

Lemma to_text_row_ok (tokens : string) (row : list Z) :
  Forall (λ x, - Z.of_nat (String.length tokens) ≤ x
               < Z.of_nat (String.length tokens)) row →
  ∃ text, (cs ← for_each (py_str_index tokens) row;
           Ok (String.string_of_list_ascii cs)) = Ok text
          ∧ String.length text = length row.
Proof.
  intros Hrow.
  destruct (for_each_total (py_str_index tokens) row) as [cs Hcs].
  { eapply Forall_impl; [exact Hrow|]. intros x Hx. by apply py_str_index_ok. }
  rewrite Hcs. eexists. split; [done|].
  rewrite length_string_of_list_ascii. apply for_each_Forall2 in Hcs.
  symmetry. by eapply Forall2_length.
Qed.

Lemma to_text_inv (tokens : string) (dense : list (list Z))
    (texts : list string) :
  to_text tokens dense = Ok texts →
  Forall (Forall (λ x, - Z.of_nat (String.length tokens) ≤ x
                       < Z.of_nat (String.length tokens))) dense
  ∧ Forall2 (λ text row, String.length text = length row) texts dense.
Proof.
  intros Hok. apply for_each_Forall2 in Hok. split.
  - apply Forall_forall. intros row Hrow.
    apply list_elem_of_lookup in Hrow as [i Hi].
    destruct (Forall2_lookup_l _ _ _ _ _ Hok Hi) as (text & _ & Htext).
    cbv beta in Htext.
    destruct (for_each (py_str_index tokens) row) as [cs|e] eqn:Hcs; [|done].
    apply for_each_Forall2 in Hcs.
    apply Forall_forall. intros x Hx.
    apply list_elem_of_lookup in Hx as [k Hk].
    destruct (Forall2_lookup_l _ _ _ _ _ Hcs Hk) as (c & _ & Hc).
    destruct (decide (- Z.of_nat (String.length tokens) ≤ x
                      < Z.of_nat (String.length tokens))) as [|Hout]; [done|].
    by rewrite py_str_index_out in Hc.
  - apply Forall2_flip. eapply Forall2_impl; [exact Hok|].
    intros row text Htext. cbv beta in Htext.
    destruct (for_each (py_str_index tokens) row) as [cs|e] eqn:Hcs; [|done].
    cbn [mbind result_bind] in Htext. injection Htext as <-.
    rewrite length_string_of_list_ascii. apply for_each_Forall2 in Hcs.
    symmetry. by eapply Forall2_length.
Qed.

Lemma to_text_total (tokens : string) (dense : list (list Z)) :
  Forall (Forall (λ x, - Z.of_nat (String.length tokens) ≤ x
                       < Z.of_nat (String.length tokens))) dense →
  ∃ texts, to_text tokens dense = Ok texts.
Proof.
  intros Hall. apply for_each_total.
  eapply Forall_impl; [exact Hall|]. intros row Hrow.
  destruct (to_text_row_ok tokens row Hrow) as (text & Htext & _).
  by exists text.
Qed.

Lemma to_text_raises (tokens : string) (dense : list (list Z)) (e : exn) :
  to_text tokens dense = Raise e → e = IndexError "string index out of range".
Proof.
  intros He. apply for_each_raises in He as (row & _ & Hrow).
  destruct (for_each (py_str_index tokens) row) as [cs|e'] eqn:Hcs; [done|].
  cbn [mbind result_bind] in Hrow. injection Hrow as ->.
  apply for_each_raises in Hcs as (x & _ & Hx).
  unfold py_str_index in Hx. cbv zeta in Hx.
  repeat case_bool_decide; repeat case_match; congruence.
Qed.

(** X5. The comprehension that turns dense labels into text returns
    exactly when every label [x] satisfies
    [-len(tokens) <= x < len(tokens)] (a negative label counts from the
    end of [tokens]); it then gives one string per row, as long as the
    row. Any other label ends the call in [IndexError]. *)
Theorem to_text_ok_iff (tokens : string) (dense : list (list Z)) :
  ((∃ texts, to_text tokens dense = Ok texts)
   ↔ Forall (Forall (λ x, - Z.of_nat (String.length tokens) ≤ x
                          < Z.of_nat (String.length tokens))) dense)
  ∧ (∀ texts, to_text tokens dense = Ok texts →
       Forall2 (λ text row, String.length text = length row) texts dense)
  ∧ (∀ e, to_text tokens dense = Raise e →
       e = IndexError "string index out of range").
Proof.
  split; [split|split].
  - intros [texts Hok]. by apply (to_text_inv tokens dense texts).
  - apply to_text_total.
  - intros texts Hok. by apply (to_text_inv tokens dense texts).
  - apply to_text_raises.
Qed.

Section ModelExtras.
Context {Frame Score Feed RnnState : Type}.
Context `{backend : Backend Frame Score Feed RnnState}.

Lemma leaves_clean_ret {A} (a : A) : leaves_clean (mret a).
Proof.
  intros s a' s' [= <- <-]. right. split; [done|]. exists [].
  by rewrite app_nil_r.
Qed.

Lemma leaves_clean_raise {A} (e : exn) : leaves_clean (raise (A:=A) e).
Proof. by intros s a s' [=]. Qed.

Lemma leaves_clean_lift {A} (r : result A) : leaves_clean (lift r).
Proof.
  intros s a s' [= -> <-]. right. split; [done|]. exists [].
  by rewrite app_nil_r.
Qed.

Lemma leaves_clean_print (msg : string) : leaves_clean (print msg).
Proof.
  intros s a s' [= <- <-]. right. split; [done|]. by exists [msg].
Qed.

Lemma leaves_clean_tf_run {A} (t : graph_tensor Feed RnnState A)
    (feed : option Feed) : leaves_clean (tf_run t feed).
Proof.
  intros s a s'. rewrite tf_run_unfold.
  destruct (t feed zero_state) as [[outs|e] k]; [|done].
  intros [= <- <-]. by left.
Qed.

Lemma leaves_clean_bind {A B} (m : M RnnState A) (f : A → M RnnState B) :
  leaves_clean m → (∀ a, leaves_clean (f a)) → leaves_clean (m ≫= f).
Proof.
  intros Hm Hf s b s2. unfold mbind, M_bind.
  destruct (m s) as [[a|e] s1] eqn:Hms; [|done].
  intros Hfs. specialize (Hm _ _ _ Hms). specialize (Hf _ _ _ _ Hfs).
  destruct Hf as [Hz|(Hr & msgs2 & Hl2)]; [by left|].
  destruct Hm as [Hz|(Hr1 & msgs1 & Hl1)].
  - left. congruence.
  - right. split; [congruence|]. exists (msgs1 ++ msgs2).
    by rewrite Hl2, Hl1, fmap_app, app_assoc.
Qed.

Ltac clean_step :=
  first [ apply leaves_clean_ret | apply leaves_clean_raise
        | apply leaves_clean_lift | apply leaves_clean_print
        | apply leaves_clean_tf_run
        | apply leaves_clean_bind; [|intros ?] ].

Lemma leaves_clean_logits_or_run
    (t : graph_tensor Feed RnnState (list (list Frame)))
    (feed : option Feed) (logits : option (list (list Frame))) :
  leaves_clean (logits_or_run t feed logits).
Proof.
  destruct logits as [lg|]; [apply leaves_clean_ret|].
  unfold logits_or_run, get_logits.
  destruct feed; repeat clean_step.
Qed.

(** X6. When [inference] returns, the recurrent state is zero, or
    the call has run nothing: the state is the one it found and the log
    has gained printed lines only. *)
Theorem inference_leaves_state_clean (self : Model Frame Feed RnnState)
    (batch : Batch) (feed : option Feed)
    (logits : option (list (list Frame))) (decoder : option string)
    (top_five : bool) (s s' : session RnnState) (out : output Score) :
  inference self batch feed logits decoder top_five s = (Ok out, s') →
  rnn s' = zero_state
  ∨ (rnn s' = rnn s ∧ ∃ msgs, log s' = log s ++ (EvPrint <$> msgs)).
Proof.
  revert s out s'.
  change (leaves_clean (inference self batch feed logits decoder top_five)).
  unfold inference, tf_beam_decode, tf_greedy_decode.
  repeat (case_decide || case_match);
    repeat first [ apply leaves_clean_logits_or_run | clean_step ].
Qed.

(** The [batch] branch on given logits. *)
Lemma batch_branch_unfold (self : Model Frame Feed RnnState) (batch : Batch)
    (feed : option Feed) (items : list (list Frame)) (top_five : bool)
    (s : session RnnState) :
  inference self batch feed (Some items) (Some "batch") top_five s
  = (decoding_probs ← ds_decode_batch self (Some items)
                        (feature_lengths batch);
     if top_five then
       probs ← for_each (λ ij, h ← hyp_at decoding_probs ij.2 ij.1; Ok h.1)
                 (rank_then_item (size batch));
       decodings ← for_each
                     (λ ij, h ← hyp_at decoding_probs ij.2 ij.1; Ok h.2)
                     (rank_then_item (size batch));
       Ok (OutLists decodings probs)
     else
       probs ← for_each (λ j, h ← hyp_at decoding_probs j 0; Ok h.1)
                 (Z.to_nat <$> py_range 0 (size batch) 1);
       decodings ← for_each (λ j, h ← hyp_at decoding_probs j 0; Ok h.2)
                     (Z.to_nat <$> py_range 0 (size batch) 1);
       Ok (OutLists decodings probs), s).
Proof.
  unfold inference. cbn [truthy String.eqb negb].
  rewrite decide_False by done.
  rewrite bool_decide_eq_false_2 by done. cbn [orb].
  rewrite decide_True by done.
  unfold logits_or_run, lift, mbind at 1 2, M_bind, mret, M_ret.
  destruct (ds_decode_batch self (Some items) (feature_lengths batch))
    as [dp|e]; [|done].
  cbn [mbind result_bind]. destruct top_five.
  - unfold mbind at 1 2, M_bind.
    destruct (for_each _ (rank_then_item (size batch))) as [probs|e]; [|done].
    cbn [mbind result_bind].
    by destruct (for_each _ (rank_then_item (size batch))).
  - unfold mbind at 1 2, M_bind.
    destruct (for_each _ (Z.to_nat <$> py_range 0 (size batch) 1))
      as [probs|e]; [|done].
    cbn [mbind result_bind].
    by destruct (for_each _ (Z.to_nat <$> py_range 0 (size batch) 1)).
Qed.

(** X7. With logits supplied, the [ds] and [batch] strategies do
    not touch the session (no reset, no run, no print) and do not read
    the feed, whether they return or raise. *)
Theorem lm_decoders_leave_session (self : Model Frame Feed RnnState)
    (batch : Batch) (feed : option Feed) (items : list (list Frame))
    (top_five : bool) (s : session RnnState) :
  (inference self batch feed (Some items) (Some "ds") top_five s).2 = s
  ∧ (inference self batch feed (Some items) (Some "batch") top_five s).2 = s
  ∧ inference self batch feed (Some items) (Some "ds") top_five s
    = inference self batch None (Some items) (Some "ds") top_five s
  ∧ inference self batch feed (Some items) (Some "batch") top_five s
    = inference self batch None (Some items) (Some "batch") top_five s.
Proof. by rewrite !ds_branch_unfold, !batch_branch_unfold. Qed.

(** X8. A decoder name other than [tf], [ds], [batch] and
    [greedy] raises the "valid decoder" exception before anything is
    computed: the session is left as it was, whatever the feed and the
    logits. *)
Theorem unknown_decoder_raises (self : Model Frame Feed RnnState)
    (batch : Batch) (feed : option Feed)
    (logits : option (list (list Frame))) (d : string) (top_five : bool)
    (s : session RnnState) :
  d ≠ "" → d ≠ "tf" → d ≠ "ds" → d ≠ "batch" → d ≠ "greedy" →
  inference self batch feed logits (Some d) top_five s
  = (Raise (Exception_
              "Please choose a valid decoder -- tf, greedy, ds or batch"), s).
Proof.
  intros He Htf Hds Hbatch Hgreedy. unfold inference.
  assert (Ht : truthy (Some d) = true).
  { unfold truthy. by apply negb_true_iff, String.eqb_neq. }
  rewrite Ht.
  rewrite !decide_False by congruence.
  rewrite bool_decide_eq_false_2 by congruence. by rewrite Ht.
Qed.

(** X9. An absent or empty [decoder] argument selects the
    decoder the model was built with; when that one is absent or empty
    too, the [ds] strategy runs. *)
Theorem decoder_argument_falls_back (self : Model Frame Feed RnnState)
    (batch : Batch) (feed : option Feed)
    (logits : option (list (list Frame))) (d : option string)
    (top_five : bool) (s : session RnnState) :
  truthy d = false →
  inference self batch feed logits d top_five s
  = inference self batch feed logits (decoder self) top_five s
  ∧ (truthy (decoder self) = false →
     inference self batch feed logits d top_five s
     = inference self batch feed logits (Some "ds") top_five s).
Proof.
  intros Hd. split.
  - unfold inference. cbv zeta. rewrite Hd.
    destruct (truthy (decoder self)) eqn:Ht; cbv iota; rewrite ?Ht; reflexivity.
  - intros Hself. unfold inference. cbv zeta. rewrite Hd.
    change (truthy (Some "ds")) with true. cbv iota.
    assert (Hne : ∀ x : string, x ≠ "" → decoder self ≠ Some x).
    { intros x Hx Heq. rewrite Heq in Hself. unfold truthy in Hself.
      apply negb_false_iff, String.eqb_eq in Hself. done. }
    rewrite Hself.
    rewrite (decide_False (P := decoder self = Some "tf")) by (by apply Hne).
    rewrite (decide_False (P := Some "ds" = Some "tf")) by done.
    rewrite (bool_decide_eq_true_2 (Some "ds" = Some "ds")) by done.
    by rewrite orb_true_r.
Qed.

End ModelExtras.

(** ** Index pairs of the nested comprehension *)

Lemma bind_pair_row (x : nat) (l : list nat) :
  (y ← l; [(x, y)]) = (λ y, (x, y)) <$> l.
Proof.
  induction l as [|y l IHl]; [done|].
  cbn [mbind list_bind fmap list_fmap app]. by f_equal.
Qed.

Lemma pairs_lookup (a b s i j : nat) :
  (i < a)%nat → (j < b)%nat →
  (x ← seq s a; y ← seq 0 b; [(x, y)]) !! (i * b + j)%nat
  = Some ((s + i)%nat, j).
Proof.
  revert s i. induction a as [|a IH]; intros s i Hi Hj; [lia|].
  cbn [seq]. rewrite bind_cons, bind_pair_row.
  destruct i as [|i].
  - rewrite lookup_app_l by (rewrite length_fmap, length_seq; lia).
    rewrite list_lookup_fmap, lookup_seq_lt by lia.
    cbn. by rewrite Nat.add_0_r.
  - rewrite lookup_app_r by (rewrite length_fmap, length_seq; lia).
    rewrite length_fmap, length_seq.
    replace (S i * b + j - b)%nat with (i * b + j)%nat by lia.
    rewrite (IH (S s) i) by lia. f_equal. f_equal. lia.
Qed.

Lemma pairs_length (a b s : nat) :
  length (x ← seq s a; y ← seq 0 b; [(x, y)]) = (a * b)%nat.
Proof.
  revert s. induction a as [|a IH]; intros s; [done|].
  cbn [seq]. rewrite bind_cons, length_app, IH.
  rewrite bind_pair_row, length_fmap, length_seq. lia.
Qed.

Lemma rank_then_item_seq (n : nat) :
  rank_then_item (Z.of_nat n) = (i ← seq 0 5; j ← seq 0 n; [(i, j)]).
Proof.
  unfold rank_then_item.
  change (Z.to_nat <$> py_range 0 5 1) with (seq 0 5).
  rewrite py_range_unit, <- list_fmap_compose.
  assert (Hid : Z.to_nat ∘ Z.of_nat <$> seq 0 n = seq 0 n).
  { rewrite <- (list_fmap_id (seq 0 n)) at 2.
    apply list_fmap_ext. intros _ k _. unfold compose. simpl. lia. }
  by rewrite Hid.
Qed.

Lemma for_each_lookup {A B} (f : A → result B) (l : list A) (ys : list B)
    (k : nat) (x : A) :
  for_each f l = Ok ys → l !! k = Some x →
  ∃ y, f x = Ok y ∧ ys !! k = Some y.
Proof.
  intros Hok%for_each_Forall2 Hk.
  destruct (Forall2_lookup_l _ _ _ _ _ Hok Hk) as (y & Hy & Hf).
  by exists y.
Qed.

Lemma for_each_length {A B} (f : A → result B) (l : list A) (ys : list B) :
  for_each f l = Ok ys → length ys = length l.
Proof. intros Hok%for_each_Forall2. symmetry. by eapply Forall2_length. Qed.

Section ModelOrder.
Context {Frame Score Feed RnnState : Type}.
Context `{backend : Backend Frame Score Feed RnnState}.

(** The [top_five] comprehensions of the [batch] strategy on the
    hypotheses [dp] of a batch of [n] items. *)
Lemma batch_top_five_lists (dp : list (list (Score * string))) (n : nat)
    (probs : list Score) (decodings : list string) :
  for_each (λ ij : nat * nat, h ← hyp_at dp ij.2 ij.1; Ok h.1)
    (rank_then_item (Z.of_nat n)) = Ok probs →
  for_each (λ ij : nat * nat, h ← hyp_at dp ij.2 ij.1; Ok h.2)
    (rank_then_item (Z.of_nat n)) = Ok decodings →
  length decodings = (5 * n)%nat ∧ length probs = (5 * n)%nat
  ∧ ∀ i j : nat, (i < 5)%nat → (j < n)%nat →
      ∃ h, hyp_at dp j i = Ok h
           ∧ probs !! (i * n + j)%nat = Some h.1
           ∧ decodings !! (i * n + j)%nat = Some h.2.
Proof.
  intros Hp Hd. rewrite rank_then_item_seq in Hp, Hd.
  split; [|split].
  - by rewrite (for_each_length _ _ _ Hd), pairs_length.
  - by rewrite (for_each_length _ _ _ Hp), pairs_length.
  - intros i j Hi Hj.
    pose proof (pairs_lookup 5 n 0 i j Hi Hj) as Hk. cbn [Nat.add] in Hk.
    destruct (for_each_lookup _ _ _ _ _ Hp Hk) as (p & Hfp & Hpk).
    destruct (for_each_lookup _ _ _ _ _ Hd Hk) as (t & Hft & Htk).
    cbn [fst snd] in Hfp, Hft.
    destruct (hyp_at dp j i) as [h|e]; [|done].
    cbn [mbind result_bind] in Hfp, Hft.
    injection Hfp as <-. injection Hft as <-. by exists h.
Qed.

Lemma batch_top_five_total (dp : list (list (Score * string))) (n : nat) :
  (∀ i j : nat, (i < 5)%nat → (j < n)%nat → ∃ h, hyp_at dp j i = Ok h) →
  (∃ probs, for_each (λ ij : nat * nat, h ← hyp_at dp ij.2 ij.1; Ok h.1)
              (rank_then_item (Z.of_nat n)) = Ok probs)
  ∧ (∃ decodings,
       for_each (λ ij : nat * nat, h ← hyp_at dp ij.2 ij.1; Ok h.2)
         (rank_then_item (Z.of_nat n)) = Ok decodings).
Proof.
  intros Hall.
  assert (Hin : ∀ ij : nat * nat, ij ∈ rank_then_item (Z.of_nat n) →
                  (ij.1 < 5)%nat ∧ (ij.2 < n)%nat).
  { intros [i j]. rewrite rank_then_item_seq.
    intros (x & Hxy & Hx)%list_elem_of_bind.
    apply list_elem_of_bind in Hxy as (y & Hxy & Hy).
    apply list_elem_of_singleton in Hxy as [= -> ->].
    apply elem_of_seq in Hx, Hy. cbn. lia. }
  split; apply for_each_total, Forall_forall; intros ij [Hi Hj]%Hin;
    destruct (Hall _ _ Hi Hj) as [h ->]; by eexists.
Qed.

(** X10. The [batch] strategy with [top_five] returns, for a batch
    of [n] items, [5 n] texts and [5 n] scores in rank-major order:
    entry [i n + j] is hypothesis [i] of item [j]. It returns exactly
    when every one of the [n] items has at least five hypotheses. *)
Theorem batch_top_five_is_rank_major (self : Model Frame Feed RnnState)
    (batch : Batch) (feed : option Feed) (items : list (list Frame))
    (dp : list (list (Score * string))) (n : nat) (s : session RnnState) :
  size batch = Z.of_nat n →
  ds_decode_batch self (Some items) (feature_lengths batch) = Ok dp →
  (∀ out s',
     inference self batch feed (Some items) (Some "batch") true s
     = (Ok out, s') →
     ∃ decodings probs,
       out = OutLists decodings probs
       ∧ length decodings = (5 * n)%nat ∧ length probs = (5 * n)%nat
       ∧ ∀ i j : nat, (i < 5)%nat → (j < n)%nat →
           ∃ h, hyp_at dp j i = Ok h
                ∧ probs !! (i * n + j)%nat = Some h.1
                ∧ decodings !! (i * n + j)%nat = Some h.2)
  ∧ ((∃ out s',
        inference self batch feed (Some items) (Some "batch") true s
        = (Ok out, s'))
     ↔ ∀ i j : nat, (i < 5)%nat → (j < n)%nat → ∃ h, hyp_at dp j i = Ok h).
Proof.
  intros Hn Hdp. rewrite batch_branch_unfold, Hdp, Hn.
  cbn [mbind result_bind].
  assert (Hret : ∀ out s',
    (probs ← for_each (λ ij : nat * nat, h ← hyp_at dp ij.2 ij.1; Ok h.1)
               (rank_then_item (Z.of_nat n));
     decodings ← for_each (λ ij : nat * nat, h ← hyp_at dp ij.2 ij.1; Ok h.2)
                   (rank_then_item (Z.of_nat n));
     Ok (OutLists decodings probs), s) = (Ok out, s') →
    ∃ decodings probs,
      out = OutLists decodings probs
      ∧ length decodings = (5 * n)%nat ∧ length probs = (5 * n)%nat
      ∧ ∀ i j : nat, (i < 5)%nat → (j < n)%nat →
          ∃ h, hyp_at dp j i = Ok h
               ∧ probs !! (i * n + j)%nat = Some h.1
               ∧ decodings !! (i * n + j)%nat = Some h.2).
  { intros out s'.
    destruct (for_each (λ ij : nat * nat, h ← hyp_at dp ij.2 ij.1; Ok h.1) _)
      as [probs|e] eqn:Hp; [|done].
    cbn [mbind result_bind].
    destruct (for_each (λ ij : nat * nat, h ← hyp_at dp ij.2 ij.1; Ok h.2) _)
      as [decodings|e] eqn:Hd; [|done].
    cbn [mbind result_bind]. intros [= <- <-].
    exists decodings, probs. split; [done|].
    by apply batch_top_five_lists. }
  split; [exact Hret|]. split.
  - intros (out & s' & Hrun) i j Hi Hj.
    destruct (Hret _ _ Hrun) as (decodings & probs & _ & _ & _ & Hall).
    destruct (Hall i j Hi Hj) as (h & Hh & _). by exists h.
  - intros Hall.
    destruct (batch_top_five_total dp n Hall) as [[probs ->] [decodings ->]].
    cbn [mbind result_bind]. by eexists _, _.
Qed.

Lemma range_items_seq (n : nat) :
  Z.to_nat <$> py_range 0 (Z.of_nat n) 1 = seq 0 n.
Proof.
  rewrite py_range_unit, <- list_fmap_compose.
  rewrite <- (list_fmap_id (seq 0 n)) at 2.
  apply list_fmap_ext. intros _ k _. unfold compose. simpl. lia.
Qed.

(** X11. Without [top_five] the [batch] strategy returns, for a
    batch of [n] items, [n] texts and [n] scores: entry [j] is the best
    hypothesis of item [j]. It returns exactly when each of the [n]
    items has a hypothesis. *)
Theorem batch_returns_best_of_each_item (self : Model Frame Feed RnnState)
    (batch : Batch) (feed : option Feed) (items : list (list Frame))
    (dp : list (list (Score * string))) (n : nat) (s : session RnnState) :
  size batch = Z.of_nat n →
  ds_decode_batch self (Some items) (feature_lengths batch) = Ok dp →
  (∀ out s',
     inference self batch feed (Some items) (Some "batch") false s
     = (Ok out, s') →
     ∃ decodings probs,
       out = OutLists decodings probs
       ∧ length decodings = n ∧ length probs = n
       ∧ ∀ j : nat, (j < n)%nat →
           ∃ h, hyp_at dp j 0 = Ok h
                ∧ probs !! j = Some h.1 ∧ decodings !! j = Some h.2)
  ∧ ((∃ out s',
        inference self batch feed (Some items) (Some "batch") false s
        = (Ok out, s'))
     ↔ ∀ j : nat, (j < n)%nat → ∃ h, hyp_at dp j 0 = Ok h).
Proof.
  intros Hn Hdp. rewrite batch_branch_unfold, Hdp, Hn, range_items_seq.
  cbn [mbind result_bind].
  assert (Hret : ∀ out s',
    (probs ← for_each (λ j : nat, h ← hyp_at dp j 0; Ok h.1) (seq 0 n);
     decodings ← for_each (λ j : nat, h ← hyp_at dp j 0; Ok h.2) (seq 0 n);
     Ok (OutLists decodings probs), s) = (Ok out, s') →
    ∃ decodings probs,
      out = OutLists decodings probs
      ∧ length decodings = n ∧ length probs = n
      ∧ ∀ j : nat, (j < n)%nat →
          ∃ h, hyp_at dp j 0 = Ok h
               ∧ probs !! j = Some h.1 ∧ decodings !! j = Some h.2).
  { intros out s'.
    destruct (for_each (λ j : nat, h ← hyp_at dp j 0; Ok h.1) _)
      as [probs|e] eqn:Hp; [|done].
    cbn [mbind result_bind].
    destruct (for_each (λ j : nat, h ← hyp_at dp j 0; Ok h.2) _)
      as [decodings|e] eqn:Hd; [|done].
    cbn [mbind result_bind]. intros [= <- <-].
    exists decodings, probs. split; [done|].
    split; [by rewrite (for_each_length _ _ _ Hd), length_seq|].
    split; [by rewrite (for_each_length _ _ _ Hp), length_seq|].
    intros j Hj.
    assert (Hk : seq 0 n !! j = Some j) by (by rewrite lookup_seq_lt).
    destruct (for_each_lookup _ _ _ _ _ Hp Hk) as (p & Hfp & Hpk).
    destruct (for_each_lookup _ _ _ _ _ Hd Hk) as (t & Hft & Htk).
    destruct (hyp_at dp j 0) as [h|e]; [|done].
    cbn [mbind result_bind] in Hfp, Hft.
    injection Hfp as <-. injection Hft as <-. by exists h. }
  split; [exact Hret|]. split.
  - intros (out & s' & Hrun) j Hj.
    destruct (Hret _ _ Hrun) as (decodings & probs & _ & _ & _ & Hall).
    destruct (Hall j Hj) as (h & Hh & _). by exists h.
  - intros Hall.
    assert (Hin : Forall (λ j : nat, ∃ h, hyp_at dp j 0 = Ok h) (seq 0 n)).
    { apply Forall_forall. intros j Hj%elem_of_seq. apply Hall. lia. }
    destruct (for_each_total (λ j : nat, h ← hyp_at dp j 0; Ok h.1) (seq 0 n))
      as [probs ->].
    { eapply Forall_impl; [exact Hin|]. intros j [h ->]. by eexists. }
    destruct (for_each_total (λ j : nat, h ← hyp_at dp j 0; Ok h.2) (seq 0 n))
      as [decodings ->].
    { eapply Forall_impl; [exact Hin|]. intros j [h ->]. by eexists. }
    cbn [mbind result_bind]. by eexists _, _.
Qed.

(** X12. For the [ds] and [batch] strategies, passing a feed is
    passing the logits it produces: when the acoustic model, run from
    the zero state, yields [lg], the call with the feed has the outcome
    of the call with [lg], and leaves the session reset with one
    bracketed run in its log. *)
Theorem feed_is_run_then_decode (self : Model Frame Feed RnnState)
    (batch : Batch) (feed : Feed) (lg : list (list Frame)) (k : RnnState)
    (d : string) (top_five : bool) (s : session RnnState) :
  d = "ds" ∨ d = "batch" →
  logits self (Some feed) zero_state = (Ok lg, k) →
  inference self batch (Some feed) None (Some d) top_five s
  = ((inference self batch None (Some lg) (Some d) top_five s).1,
     mkSession zero_state (log s ++ [EvReset; EvRun; EvReset])).
Proof.
  intros Hd Hrun.
  assert (Hlg : ∀ s0 : session RnnState,
            logits_or_run (logits self) (Some feed) None s0
            = (Ok (Some lg),
               mkSession zero_state (log s0 ++ [EvReset; EvRun; EvReset]))).
  { intros s0. unfold logits_or_run, get_logits, mbind, M_bind.
    by rewrite tf_run_unfold, Hrun. }
  destruct Hd as [-> | ->].
  - rewrite ds_branch_unfold. cbn [fst].
    set (s1 := mkSession zero_state (log s ++ [EvReset; EvRun; EvReset])).
    rewrite <- (ds_branch_unfold self batch (Some feed) lg top_five s1).
    unfold inference. cbn [truthy String.eqb negb].
    rewrite !decide_False by done.
    rewrite !bool_decide_eq_true_2 by done. cbn [orb].
    unfold mbind at 1, M_bind at 1. rewrite Hlg. fold s1.
    unfold mbind at 6, M_bind at 1. done.
  - rewrite batch_branch_unfold. cbn [fst].
    set (s1 := mkSession zero_state (log s ++ [EvReset; EvRun; EvReset])).
    rewrite <- (batch_branch_unfold self batch (Some feed) lg top_five s1).
    unfold inference. cbn [truthy String.eqb negb].
    rewrite !decide_False by done.
    rewrite !bool_decide_eq_false_2 by done. cbn [orb].
    rewrite !decide_True by done.
    unfold mbind at 1, M_bind at 1. rewrite Hlg. fold s1.
    unfold mbind at 6, M_bind at 1. done.
Qed.

End ModelOrder.

Section TfDecoders.
Context {Frame Score Feed RnnState : Type}.
Context `{backend : Backend Frame Score Feed RnnState}.

Lemma first_entries_Forall2 (scores : list (list Score))
    (probs : list Score) :
  for_each (λ prob, py_index prob 0) scores = Ok probs →
  Forall2 (λ p row, row !! 0%nat = Some p) probs scores.
Proof.
  intros Hok%for_each_Forall2. apply Forall2_flip.
  eapply Forall2_impl; [exact Hok|]. intros row p. unfold py_index.
  destruct (row !! 0%nat); [|done]. by intros [= ->].
Qed.

Lemma first_entries_total (scores : list (list Score)) :
  Forall (λ row, row ≠ []) scores →
  ∃ probs, for_each (λ prob, py_index prob 0) scores = Ok probs.
Proof.
  intros Hall. apply for_each_total.
  eapply Forall_impl; [exact Hall|]. intros [|p row] Hrow; [done|].
  by exists p.
Qed.

Lemma first_entries_raises (scores : list (list Score)) :
  ¬ Forall (λ row, row ≠ []) scores →
  for_each (λ prob, py_index prob 0) scores
  = Raise (IndexError "list index out of range").
Proof.
  intros Hnot.
  destruct (for_each (λ prob, py_index prob 0) scores) as [probs|e] eqn:Hf.
  - exfalso. apply Hnot. apply first_entries_Forall2 in Hf.
    apply Forall_forall. intros row Hrow ->.
    apply list_elem_of_lookup in Hrow as [i Hi].
    destruct (Forall2_lookup_r _ _ _ _ _ Hf Hi) as (p & _ & Hp). done.
  - apply for_each_raises in Hf as (row & _ & Hrow).
    unfold py_index in Hrow. destruct (row !! 0%nat); [done|].
    by injection Hrow as <-.
Qed.

(** [tf_greedy_decode] once the ops are built and the dense labels have
    been run: the labels are turned into text before [log_probs] is
    run. *)
Lemma tf_greedy_decode_after_first_run (self : Model Frame Feed RnnState)
    (lg : option (list (list Frame))) (lens : list Z) (toks : string)
    (s : session RnnState)
    (dense_t : graph_tensor Feed RnnState (list (list Z)))
    (probs_t : graph_tensor Feed RnnState (list (list Score)))
    (dense : list (list Z)) (k1 : RnnState) :
  tf_ctc_greedy_decoder lg lens true = Ok (dense_t, probs_t) →
  dense_t None zero_state = (Ok dense, k1) →
  tf_greedy_decode self lg lens toks s
  = match to_text toks dense with
    | Raise e =>
        (Raise e, mkSession zero_state (log s ++ [EvReset; EvRun; EvReset]))
    | Ok texts =>
        match probs_t None zero_state with
        | (Raise e, k2) =>
            (Raise e,
             mkSession k2
               (log s ++ [EvReset; EvRun; EvReset; EvReset; EvRun]))
        | (Ok scores, _) =>
            (probs ← for_each (λ prob, py_index prob 0) scores;
             Ok (texts, probs),
             mkSession zero_state
               (log s
                ++ [EvReset; EvRun; EvReset; EvReset; EvRun; EvReset]))
        end
    end.
Proof.
  intros Hops Hrun.
  unfold tf_greedy_decode, lift, mbind at 1, M_bind at 1. rewrite Hops.
  cbn [fst snd]. unfold mbind at 1, M_bind at 1.
  rewrite tf_run_unfold, Hrun.
  unfold mbind at 1, M_bind at 1.
  destruct (to_text toks dense) as [texts|e]; [|done].
  unfold mbind at 1, M_bind at 1. rewrite tf_run_unfold. cbn [log].
  rewrite <- !app_assoc. cbn [app].
  destruct (probs_t None zero_state) as [[scores|e] k2]; [|done].
  unfold mbind at 1, M_bind at 1, mret, M_ret.
  by destruct (for_each (λ prob, py_index prob 0) scores).
Qed.

(** X13. Once the greedy ops are built (with [merge_repeated] true) and
    the dense labels have been run, [tf_greedy_decode] turns the labels
    into text before it runs [log_probs]: a label that is no index into
    the tokens ends the call in [IndexError] after one bracketed run,
    and [log_probs] is never run. Otherwise, when [log_probs] runs to
    [scores], the call returns one text per row of labels, as long as
    the row, and the first entry of every row of [scores]; an empty row
    of [scores] ends it in [IndexError] after both runs. *)
Theorem tf_greedy_decode_texts_then_scores
    (self : Model Frame Feed RnnState)
    (lg : option (list (list Frame))) (lens : list Z) (toks : string)
    (s : session RnnState)
    (dense_t : graph_tensor Feed RnnState (list (list Z)))
    (probs_t : graph_tensor Feed RnnState (list (list Score)))
    (dense : list (list Z)) (k1 : RnnState) :
  tf_ctc_greedy_decoder lg lens true = Ok (dense_t, probs_t) →
  dense_t None zero_state = (Ok dense, k1) →
  let s1 := mkSession zero_state (log s ++ [EvReset; EvRun; EvReset]) in
  let s2 :=
    mkSession zero_state
      (log s ++ [EvReset; EvRun; EvReset; EvReset; EvRun; EvReset]) in
  let n := Z.of_nat (String.length toks) in
  (¬ Forall (Forall (λ x, - n ≤ x < n)) dense →
   tf_greedy_decode self lg lens toks s
   = (Raise (IndexError "string index out of range"), s1))
  ∧ (Forall (Forall (λ x, - n ≤ x < n)) dense →
     ∀ scores k2,
       probs_t None zero_state = (Ok scores, k2) →
       (Forall (λ row, row ≠ []) scores →
        ∃ texts probs,
          tf_greedy_decode self lg lens toks s = (Ok (texts, probs), s2)
          ∧ Forall2 (λ text row, String.length text = length row) texts dense
          ∧ Forall2 (λ p row, row !! 0%nat = Some p) probs scores)
       ∧ (¬ Forall (λ row, row ≠ []) scores →
          tf_greedy_decode self lg lens toks s
          = (Raise (IndexError "list index out of range"), s2))).
Proof.
  intros Hops Hrun s1 s2 n.
  rewrite (tf_greedy_decode_after_first_run self lg lens toks s
             dense_t probs_t dense k1 Hops Hrun).
  fold s1 s2. split.
  - intros Hbad. destruct (to_text toks dense) as [texts|e] eqn:Ht.
    + exfalso. by apply Hbad, (to_text_inv toks dense texts).
    + by pose proof (to_text_raises toks dense e Ht) as ->.
  - intros Hall scores k2 Hscores.
    destruct (to_text_total toks dense Hall) as [texts Ht].
    rewrite Ht, Hscores. split.
    + intros Hrows. destruct (first_entries_total scores Hrows) as [probs Hp].
      exists texts, probs. rewrite Hp. split; [done|]. split.
      * by apply (to_text_inv toks dense texts).
      * by apply first_entries_Forall2.
    + intros Hrows. by rewrite (first_entries_raises scores Hrows).
Qed.

(** X14. When [tf_beam_decode] returns, the ops were built with
    [merge_repeated] false and the beam width of the model, the dense
    labels were run once from the zero state without a feed, and the
    result has one text per row of dense labels, as long as the row. When
    a label is not an index into the tokens the call raises [IndexError]
    after that run: the session is reset and the run is in its log. *)
Theorem tf_beam_decode_one_text_per_row (self : Model Frame Feed RnnState)
    (lg : option (list (list Frame))) (lens : list Z) (toks : string)
    (s : session RnnState)
    (dense_t : graph_tensor Feed RnnState (list (list Z)))
    (dense : list (list Z)) (k : RnnState) :
  tf_ctc_beam_search_dense lg lens false (beam_width self) = Ok dense_t →
  dense_t None zero_state = (Ok dense, k) →
  let s1 := mkSession zero_state (log s ++ [EvReset; EvRun; EvReset]) in
  let n := Z.of_nat (String.length toks) in
  (Forall (Forall (λ x, - n ≤ x < n)) dense →
   ∃ texts,
     tf_beam_decode self lg lens toks s = (Ok texts, s1)
     ∧ Forall2 (λ text row, String.length text = length row) texts dense)
  ∧ (¬ Forall (Forall (λ x, - n ≤ x < n)) dense →
     tf_beam_decode self lg lens toks s
     = (Raise (IndexError "string index out of range"), s1)).
Proof.
  intros Hops Hrun s1 n.
  assert (Heq : tf_beam_decode self lg lens toks s = (to_text toks dense, s1)).
  { unfold tf_beam_decode, lift, mbind at 1, M_bind at 1. rewrite Hops.
    unfold mbind at 1, M_bind at 1. rewrite tf_run_unfold, Hrun. done. }
  rewrite Heq. split; intros Hall.
  - destruct (to_text_total toks dense Hall) as [texts Ht].
    exists texts. rewrite Ht. split; [done|].
    by apply (to_text_inv toks dense texts).
  - destruct (to_text toks dense) as [texts|e] eqn:Ht.
    + exfalso. by apply Hall, (to_text_inv toks dense texts).
    + pose proof (to_text_raises toks dense e Ht) as ->. done.
Qed.

End TfDecoders.

Section CheckpointFacts.
Context {Var SaverT Ckpt Weights : Type}.
Context `{checkpoints : Checkpoints Var SaverT Ckpt Weights}.

Lemma saver_mapping_lookup (global_variables : list Var) (name : string) :
  saver_mapping global_variables !! name
  = if startswith name "previous_state_" || startswith name "qq"
    then None
    else last (filter (λ v, op_name v = name) global_variables).
Proof.
  unfold saver_mapping.
  induction global_variables as [|v vars IH] using rev_ind.
  - cbn [foldl]. rewrite lookup_empty. by destruct (_ || _).
  - rewrite foldl_app, filter_app. cbn [foldl].
    destruct (decide (op_name v = name)) as [<-|Hne].
    + rewrite (filter_cons_True _ v []) by done. rewrite filter_nil, last_snoc.
      destruct (startswith (op_name v) "previous_state_"); cbn [negb andb orb].
      { exact IH. }
      destruct (startswith (op_name v) "qq"); cbn [negb andb orb].
      { exact IH. }
      by rewrite lookup_insert_eq.
    + rewrite (filter_cons_False _ v []) by done.
      rewrite filter_nil, app_nil_r, <- IH.
      destruct (negb _ && negb _); [|done].
      by rewrite lookup_insert_ne.
Qed.

(** X15. The saver of [load_checkpoint] is built over the graph's
    variables by name, the last of a name winning, except those whose
    name starts with [previous_state_] or [qq]: the recurrent state is
    never among the variables a checkpoint restores. When that saver is
    built and the directory has no checkpoint state, the call raises
    the "valid checkpoint directory" exception naming the directory,
    with the saver already replaced and no variable touched. The call
    returns only after that saver has restored the variables from the
    path of the directory's checkpoint state. *)
Theorem load_checkpoint_skips_state_variables (global_variables : list Var)
    (self : Loader SaverT Weights) :
  (∀ name,
     saver_mapping global_variables !! name
     = if startswith name "previous_state_" || startswith name "qq"
       then None
       else last (filter (λ v, op_name v = name) global_variables))
  ∧ (∀ sv,
       tf_train_Saver (saver_mapping global_variables) = Ok sv →
       get_checkpoint_state (checkpoint_dir self) = None →
       load_checkpoint global_variables self
       = (Raise (Exception_ ("Not a valid checkpoint directory ("
                             ++ checkpoint_dir self ++ ")")),
          mkLoader (checkpoint_dir self) (Some sv) (weights self)))
  ∧ (∀ self',
       load_checkpoint global_variables self = (Ok tt, self') →
       ∃ sv checkpoint,
         tf_train_Saver (saver_mapping global_variables) = Ok sv
         ∧ get_checkpoint_state (checkpoint_dir self) = Some checkpoint
         ∧ saver_restore sv (model_checkpoint_path checkpoint) (weights self)
           = (Ok tt, weights self')
         ∧ saver self' = Some sv
         ∧ checkpoint_dir self' = checkpoint_dir self).
Proof.
  split; [apply saver_mapping_lookup|]. split.
  - intros sv Hsv Hnone. unfold load_checkpoint. cbv zeta.
    rewrite Hsv. cbn [checkpoint_dir weights]. by rewrite Hnone.
  - intros self'. unfold load_checkpoint. cbv zeta.
    destruct (tf_train_Saver (saver_mapping global_variables)) as [sv|e];
      [|done].
    cbn [checkpoint_dir weights].
    destruct (get_checkpoint_state (checkpoint_dir self)) as [checkpoint|];
      [|done].
    destruct (saver_restore sv (model_checkpoint_path checkpoint)
                (weights self)) as [r w] eqn:Hrestore.
    intros [= -> <-]. by exists sv, checkpoint.
Qed.

End CheckpointFacts.

(** The checkpoint path at a concrete store: of six variables the two
    recurrent-state variables and the [qq] variable are left out of what
    is restored; a directory without checkpoint state raises. *)
Lemma toy_load_checkpoint :
  load_checkpoint ToyCheckpoint.variables (mkLoader "ckpt" None [])
  = (Ok tt,
     mkLoader "ckpt" (Some (saver_mapping ToyCheckpoint.variables))
       ["layer_1/weights"; "layer_1/bias"; "layer_6/bias"])
  ∧ load_checkpoint ToyCheckpoint.variables (mkLoader "data" None [])
    = (Raise (Exception_ "Not a valid checkpoint directory (data)"),
       mkLoader "data" (Some (saver_mapping ToyCheckpoint.variables)) []).
Proof. split; by vm_compute. Qed.

(** The shape rules at concrete inputs: a [batch_size] of 2 on one
    waveform is rejected where the filter bank is multiplied in, and an
    MFCC tensor without frames is rejected by the bound of
    [_context_generator]. *)
Lemma toy_shape_errors :
  mfcc_ops (init_default (F:=Q) [Toy.wave 512] 2)
  = Raise (ValueError "Dimensions must be equal")
  ∧ window_ops (set_mfcc (init_default (F:=Q) [Toy.wave 512] 1) [[]])
    = Raise (ValueError "Dimension -26 must be >= 0").
Proof. split; by vm_compute. Qed.

(** X1 at one waveform of 512 samples: one frame. *)
Lemma mfcc_ops_frames_witness :
  mfcc_ops (init_default (F:=Q) [Toy.wave 512] 1)
  = Ok (set_mfcc (init_default [Toy.wave 512] 1)
          ((λ row,
              (λ k : nat,
                 frame_mfcc
                   (take 512 (drop (k * 320)
                                (preemphasis_row (cast <$> row)))))
                <$> seq 0 1)
             <$> [Toy.wave 512])).
Proof.
  apply (mfcc_ops_frames (numerics:=Toy.numerics) [Toy.wave 512] 1 512 0).
  - discriminate.
  - reflexivity.
  - repeat constructor.
  - lia.
Defined.

(** X2 at two waveforms of 832 samples with [batch_size] 1. *)
Lemma mfcc_ops_accepted_lengths_witness :
  (∃ t, mfcc_ops (init_default (F:=Q) [Toy.wave 832; Toy.wave 832] 1) = Ok t)
  ↔ 1 = Z.of_nat (length [Toy.wave 832; Toy.wave 832])
    ∧ ∃ j : nat, (512 + 320 * j ≤ 832 ≤ 640 + 320 * j)%nat.
Proof.
  apply (mfcc_ops_accepted_lengths (numerics:=Toy.numerics)
           [Toy.wave 832; Toy.wave 832] 1 832).
  - discriminate.
  - repeat constructor.
Defined.

(** C6 fails as stated: a waveform of 700 samples is longer than a
    window of 512, and no feature tensor is produced: the second slice
    of the framing stage runs past the end of the waveform, and
    stacking the slices raises. *)
Lemma no_features_at_700_samples :
  (512 ≤ length (Toy.wave 700))%nat
  ∧ fmap (M:=list) length
      <$> _window_generator (init_default (F:=Q) [Toy.wave 700] 1)
            (preemphasis (fmap (M:=list) cast <$> [Toy.wave 700])) 700
    = [[512%nat]; [380%nat]]
  ∧ extract_features (F:=Q) [Toy.wave 700] 1
    = Raise (ValueError "Shapes of all inputs must match").
Proof.
  split; [unfold Toy.wave; rewrite length_fmap, length_seq; lia|].
  split; by vm_compute.
Qed.

(** C6, as amended, at one waveform of 512 samples. *)
Lemma context_stacking_on_whole_windows_witness :
  ((∃ t, extract_features (F:=Q) [Toy.wave 512] (Z.of_nat 1) = Ok t)
   ↔ ∃ j : nat, (512 + 320 * j ≤ 512 ≤ 640 + 320 * j)%nat)
  ∧ (∀ j : nat, (512 + 320 * j ≤ 512 ≤ 640 + 320 * j)%nat →
       ∃ t f, extract_features (F:=Q) [Toy.wave 512] (Z.of_nat 1) = Ok t
              ∧ features t = Some f ∧ shape4 1 (S j) 19 26 f).
Proof.
  apply (context_stacking_on_whole_windows (numerics:=Toy.numerics)
           [Toy.wave 512] 1 512).
  - intros fr _. apply length_replicate.
  - lia.
  - repeat constructor.
Defined.

(** C8 fails as stated: a run that raises is followed by no reset, and
    the state the run left stays in the session. *)
Lemma raising_run_is_not_followed_by_reset :
  tf_run (A:=list (list Z))
    (λ _ k, (Raise (ValueError "You must feed a value for placeholder"),
             k + 1))
    None Toy.fresh
  = (Raise (ValueError "You must feed a value for placeholder"),
     mkSession 1 [EvReset; EvRun])
  ∧ zero_state = 0.
Proof. split; reflexivity. Qed.

(** X3 at one item with two frames of 26 coefficients. *)
Lemma window_ops_blocks_witness :
  let m : list (list (list Q)) :=
    [[replicate 26 (inject_Z 1); replicate 26 (inject_Z 2)]] in
  let self := set_mfcc (init_default (F:=Q) [Toy.wave 832] 1) m in
  ∃ f, window_ops self = Ok (set_features self f)
       ∧ ∀ b it i k,
           m !! b = Some it → (i < 2)%nat → (k < 19)%nat →
           (blocks ← f !! b; block ← blocks !! i; block !! k)
           = Some (if decide (9 ≤ i + k)%nat
                   then default (replicate 26 fzero) (it !! (i + k - 9)%nat)
                   else replicate 26 fzero).
Proof.
  apply (window_ops_blocks (numerics:=Toy.numerics)
           (set_mfcc (init_default (F:=Q) [Toy.wave 832] 1)
              [[replicate 26 (inject_Z 1); replicate 26 (inject_Z 2)]])
           1 2 [[replicate 26 (inject_Z 1); replicate 26 (inject_Z 2)]]);
    try reflexivity; try (cbn; lia).
  repeat constructor.
Defined.

(** X4 at one waveform of 512 samples. *)
Lemma extract_features_shape_witness :
  ∃ t f, extract_features (F:=Q) [Toy.wave 512] (Z.of_nat 1) = Ok t
         ∧ features t = Some f ∧ shape4 1 (Z.to_nat (0 + 1)) 19 26 f.
Proof.
  apply (extract_features_shape (numerics:=Toy.numerics)
           [Toy.wave 512] 1 512 0).
  - intros fr _. apply length_replicate.
  - lia.
  - repeat constructor.
  - lia.
  - lia.
Defined.

(** X6 at a call with a feed, from a session left at state 7. *)
Lemma inference_leaves_state_clean_witness :
  let s := mkSession 7 [] in
  let s' := mkSession 0 [EvReset; EvRun; EvReset] in
  rnn s' = zero_state
  ∨ (rnn s' = rnn s ∧ ∃ msgs, log s' = log s ++ (EvPrint <$> msgs)).
Proof.
  apply (inference_leaves_state_clean Toy.model (mkBatch [2; 2] 2)
           (Some [[1; 2]; [2; 1]]) None (Some "ds") false
           (mkSession 7 []) (mkSession 0 [EvReset; EvRun; EvReset])
           (OutBest "ab" (-2))).
  vm_compute. reflexivity.
Defined.

(** X8 at the decoder name [beam]. *)
Lemma unknown_decoder_raises_witness :
  inference Toy.model (mkBatch [2; 2] 2) None (Some [[1; 2]; [2; 1]])
    (Some "beam") false Toy.fresh
  = (Raise (Exception_
              "Please choose a valid decoder -- tf, greedy, ds or batch"),
     Toy.fresh).
Proof.
  apply (unknown_decoder_raises Toy.model (mkBatch [2; 2] 2) None
           (Some [[1; 2]; [2; 1]]) "beam" false Toy.fresh);
    discriminate.
Defined.

(** X9 at a call without a decoder argument. *)
Lemma decoder_argument_falls_back_witness :
  inference Toy.model (mkBatch [2; 2] 2) None (Some [[1; 2]; [2; 1]])
    None false Toy.fresh
  = inference Toy.model (mkBatch [2; 2] 2) None (Some [[1; 2]; [2; 1]])
      (decoder Toy.model) false Toy.fresh
  ∧ (truthy (decoder Toy.model) = false →
     inference Toy.model (mkBatch [2; 2] 2) None (Some [[1; 2]; [2; 1]])
       None false Toy.fresh
     = inference Toy.model (mkBatch [2; 2] 2) None (Some [[1; 2]; [2; 1]])
         (Some "ds") false Toy.fresh).
Proof.
  apply (decoder_argument_falls_back Toy.model (mkBatch [2; 2] 2) None
           (Some [[1; 2]; [2; 1]]) None false Toy.fresh).
  reflexivity.
Defined.

(** X10 at two items of two frames, six hypotheses each. *)
Lemma batch_top_five_is_rank_major_witness :
  let dp : list (list (Z * string)) :=
    (λ text, (λ k : nat, (-2 - Z.of_nat k, String.append text (Toy.primes k)))
               <$> seq 0 6) <$> ["ab"; "ba"] in
  let run :=
    inference Toy.model (mkBatch [2; 2] 2) None (Some [[1; 2]; [2; 1]])
      (Some "batch") true Toy.fresh in
  (∀ out s',
     run = (Ok out, s') →
     ∃ decodings probs,
       out = OutLists decodings probs
       ∧ length decodings = (5 * 2)%nat ∧ length probs = (5 * 2)%nat
       ∧ ∀ i j : nat, (i < 5)%nat → (j < 2)%nat →
           ∃ h, hyp_at dp j i = Ok h
                ∧ probs !! (i * 2 + j)%nat = Some h.1
                ∧ decodings !! (i * 2 + j)%nat = Some h.2)
  ∧ ((∃ out s', run = (Ok out, s'))
     ↔ ∀ i j : nat, (i < 5)%nat → (j < 2)%nat → ∃ h, hyp_at dp j i = Ok h).
Proof.
  apply (batch_top_five_is_rank_major Toy.model (mkBatch [2; 2] 2) None
           [[1; 2]; [2; 1]] _ 2 Toy.fresh).
  - reflexivity.
  - vm_compute. reflexivity.
Defined.

(** X11 at two items of two frames. *)
Lemma batch_returns_best_of_each_item_witness :
  let dp : list (list (Z * string)) :=
    (λ text, (λ k : nat, (-2 - Z.of_nat k, String.append text (Toy.primes k)))
               <$> seq 0 6) <$> ["ab"; "ba"] in
  let run :=
    inference Toy.model (mkBatch [2; 2] 2) None (Some [[1; 2]; [2; 1]])
      (Some "batch") false Toy.fresh in
  (∀ out s',
     run = (Ok out, s') →
     ∃ decodings probs,
       out = OutLists decodings probs
       ∧ length decodings = 2%nat ∧ length probs = 2%nat
       ∧ ∀ j : nat, (j < 2)%nat →
           ∃ h, hyp_at dp j 0 = Ok h
                ∧ probs !! j = Some h.1 ∧ decodings !! j = Some h.2)
  ∧ ((∃ out s', run = (Ok out, s'))
     ↔ ∀ j : nat, (j < 2)%nat → ∃ h, hyp_at dp j 0 = Ok h).
Proof.
  apply (batch_returns_best_of_each_item Toy.model (mkBatch [2; 2] 2) None
           [[1; 2]; [2; 1]] _ 2 Toy.fresh).
  - reflexivity.
  - vm_compute. reflexivity.
Defined.

(** X12 at the [batch] strategy on a feed of two items. *)
Lemma feed_is_run_then_decode_witness :
  inference Toy.model (mkBatch [2; 2] 2) (Some [[1; 2]; [2; 1]]) None
    (Some "batch") false Toy.fresh
  = ((inference Toy.model (mkBatch [2; 2] 2) None (Some [[1; 2]; [2; 1]])
        (Some "batch") false Toy.fresh).1,
     mkSession zero_state (log Toy.fresh ++ [EvReset; EvRun; EvReset])).
Proof.
  apply (feed_is_run_then_decode Toy.model (mkBatch [2; 2] 2)
           [[1; 2]; [2; 1]] [[1; 2]; [2; 1]] 1 "batch" false Toy.fresh).
  - right. reflexivity.
  - reflexivity.
Defined.

(** X13 at time-major logits of two frames over two items. *)
Lemma tf_greedy_decode_texts_then_scores_witness :
  let dense := Toy.dense_labels [[1; 2]; [2; 1]] [2; 1] in
  let run :=
    tf_greedy_decode Toy.model (Some [[1; 2]; [2; 1]]) [2; 1] Toy.alphabet
      Toy.fresh in
  let s1 :=
    mkSession zero_state (log Toy.fresh ++ [EvReset; EvRun; EvReset]) in
  let s2 :=
    mkSession zero_state
      (log Toy.fresh
       ++ [EvReset; EvRun; EvReset; EvReset; EvRun; EvReset]) in
  let n := Z.of_nat (String.length Toy.alphabet) in
  (¬ Forall (Forall (λ x, - n ≤ x < n)) dense →
   run = (Raise (IndexError "string index out of range"), s1))
  ∧ (Forall (Forall (λ x, - n ≤ x < n)) dense →
     ∀ scores k2,
       (Ok ((λ n, [- n]) <$> [2; 1]), zero_state + 1) = (Ok scores, k2) →
       (Forall (λ row, row ≠ []) scores →
        ∃ texts probs,
          run = (Ok (texts, probs), s2)
          ∧ Forall2 (λ text row, String.length text = length row) texts dense
          ∧ Forall2 (λ p row, row !! 0%nat = Some p) probs scores)
       ∧ (¬ Forall (λ row, row ≠ []) scores →
          run = (Raise (IndexError "list index out of range"), s2))).
Proof.
  apply (tf_greedy_decode_texts_then_scores Toy.model
           (Some [[1; 2]; [2; 1]]) [2; 1] Toy.alphabet Toy.fresh
           (λ _ k, (Ok (Toy.dense_labels [[1; 2]; [2; 1]] [2; 1]), k + 1))
           (λ _ k, (Ok ((λ n, [- n]) <$> [2; 1]), k + 1))
           (Toy.dense_labels [[1; 2]; [2; 1]] [2; 1]) 1);
    reflexivity.
Defined.

(** X14 at time-major logits of two frames over two items. *)
Lemma tf_beam_decode_one_text_per_row_witness :
  let dense := Toy.dense_labels [[1; 2]; [2; 1]] [2; 1] in
  let s1 := mkSession zero_state (log Toy.fresh ++ [EvReset; EvRun; EvReset]) in
  let n := Z.of_nat (String.length Toy.alphabet) in
  (Forall (Forall (λ x, - n ≤ x < n)) dense →
   ∃ texts,
     tf_beam_decode Toy.model (Some [[1; 2]; [2; 1]]) [2; 1] Toy.alphabet
       Toy.fresh = (Ok texts, s1)
     ∧ Forall2 (λ text row, String.length text = length row) texts dense)
  ∧ (¬ Forall (Forall (λ x, - n ≤ x < n)) dense →
     tf_beam_decode Toy.model (Some [[1; 2]; [2; 1]]) [2; 1] Toy.alphabet
       Toy.fresh
     = (Raise (IndexError "string index out of range"), s1)).
Proof.
  apply (tf_beam_decode_one_text_per_row Toy.model (Some [[1; 2]; [2; 1]])
           [2; 1] Toy.alphabet Toy.fresh
           (λ _ k, (Ok (Toy.dense_labels [[1; 2]; [2; 1]] [2; 1]), k + 1))
           (Toy.dense_labels [[1; 2]; [2; 1]] [2; 1]) 1);
    reflexivity.
Defined.
